(** * Ticket lifecycle and message routing of the Discord ticket bot

    A shallow embedding of [src/main_bot.py]: the SQLite-backed ticket
    store ([Database]), the ticket creation and closing views, the
    direct-message and staff-channel routers, the slash commands and the
    AI-assist adapter, followed by the properties of the ticket lifecycle.

    Conventions of the embedding.
    - Python [int]s (Discord ids, epoch seconds) are [Z]; the
      timestamps SQLite stores are the text it returns.
    - Python [str] is [string], the UTF-8 bytes of the text; case
      folding is that of the ASCII range, whitespace is that of
      [str.isspace] on every character.
    - The two SQL tables are lists of rows in rowid order; [fetchone]
      is the first matching row.
    - The chat platform, the clock and the completion provider are an
      oracle ([Env]) fixed for the handling of one event: it says what
      each lookup returns and whether each outbound call is accepted
      or raises.
    - A handler is a computation in [M]: it threads the [World] (the
      database and the outbound calls the platform accepted) and either
      returns or raises.  What was written before an exception stays
      written, as with SQLite's committed statements. *)

From Stdlib Require Import String Ascii List ZArith Lia Bool.
From Stdlib Require Import DecimalString DecimalZ.
Import ListNotations.
Open Scope string_scope.
Open Scope Z_scope.

(* ================================================================== *)
(** ** Python strings *)

Module PyStr.

(** [str(n)] for an [int]. *)
Definition str_of_int (z : Z) : string :=
  NilZero.string_of_int (Z.to_int z).

Definition lower_char (c : ascii) : ascii :=
  let n := nat_of_ascii c in
  if ((65 <=? n) && (n <=? 90))%nat then ascii_of_nat (n + 32) else c.

(** [s.lower()] *)
Fixpoint lower (s : string) : string :=
  match s with
  | EmptyString => EmptyString
  | String c r => String (lower_char c) (lower r)
  end.

(** [s.startswith(p)] *)
Definition startswith (s p : string) : bool := String.prefix p s.

(** [s[n:]] *)
Fixpoint slice_from (n : nat) (s : string) : string :=
  match n, s with
  | O, _ => s
  | S _, EmptyString => EmptyString
  | S k, String _ r => slice_from k r
  end.

(** [c.isspace()] for the characters of one byte: tab, newline,
    vertical tab, form feed, carriage return, the four separators
    0x1c-0x1f, and the space. *)
Definition isspace (c : ascii) : bool :=
  let n := nat_of_ascii c in
  (((9 <=? n) && (n <=? 13)) || ((28 <=? n) && (n <=? 32)))%nat.

(** [c.isspace()] for the characters of two bytes: U+0085 (C2 85) and
    U+00A0 (C2 A0). *)
Definition isspace2 (a b : ascii) : bool :=
  let m := nat_of_ascii a in
  let n := nat_of_ascii b in
  ((m =? 194) && ((n =? 133) || (n =? 160)))%nat.

(** [c.isspace()] for the characters of three bytes: U+1680 (E1 9A 80),
    U+2000-U+200A (E2 80 80-8A), U+2028, U+2029 (E2 80 A8, A9),
    U+202F (E2 80 AF), U+205F (E2 81 9F) and U+3000 (E3 80 80).  No
    character of four bytes is whitespace. *)
Definition isspace3 (a b c : ascii) : bool :=
  let l := nat_of_ascii a in
  let m := nat_of_ascii b in
  let n := nat_of_ascii c in
  (((l =? 225) && (m =? 154) && (n =? 128))
   || ((l =? 226) && (m =? 128)
       && (((128 <=? n) && (n <=? 138)) || (n =? 168) || (n =? 169)
           || (n =? 175)))
   || ((l =? 226) && (m =? 129) && (n =? 159))
   || ((l =? 227) && (m =? 128) && (n =? 128)))%nat.

(** Removal of the whitespace characters at the front, for given tests
    of the characters of one, two and three bytes. *)
Fixpoint strip_left (w1 : ascii -> bool) (w2 : ascii -> ascii -> bool)
    (w3 : ascii -> ascii -> ascii -> bool) (s : string) : string :=
  match s with
  | EmptyString => EmptyString
  | String a r =>
      if w1 a then strip_left w1 w2 w3 r
      else
        match r with
        | EmptyString => s
        | String b r2 =>
            if w2 a b then strip_left w1 w2 w3 r2
            else
              match r2 with
              | EmptyString => s
              | String c r3 =>
                  if w3 a b c then strip_left w1 w2 w3 r3 else s
              end
        end
  end.

(** The bytes of a string in reverse order. *)
Fixpoint reverse (s : string) : string :=
  match s with
  | EmptyString => EmptyString
  | String c r => reverse r ++ String c EmptyString
  end.

(** [s.lstrip()] *)
Definition lstrip (s : string) : string :=
  strip_left isspace isspace2 isspace3 s.

(** [s.rstrip()]: the same removal read from the end, where the bytes
    of a character come in reverse.  In well-formed UTF-8 the first
    byte of a whitespace character is never a continuation byte, so
    reading from the end cannot cut a longer character. *)
Definition rstrip (s : string) : string :=
  reverse
    (strip_left isspace (fun b a => isspace2 a b)
       (fun c b a => isspace3 a b c) (reverse s)).

(** [s.strip()] *)
Definition strip (s : string) : string := rstrip (lstrip s).

(** Truthiness of an optional string: [None] and [''] are falsy. *)
Definition truthy (o : option string) : bool :=
  match o with
  | None => false
  | Some EmptyString => false
  | Some _ => true
  end.

End PyStr.

(* ================================================================== *)
(** ** Configuration ([class Config]) *)

Record Config := mkConfig {
  MAIN_GUILD_ID : Z;
  SUPPORT_GUILD_ID : Z;
  STAFF_ROLE_ID : Z;
  TICKET_CATEGORY_ID : Z;
  OPENAI_API_KEY : option string
}.

(* ================================================================== *)
(** ** The store ([class Database]) *)

Inductive Status := status_open | status_closed.

Definition Status_eqb (a b : Status) : bool :=
  match a, b with
  | status_open, status_open | status_closed, status_closed => true
  | _, _ => false
  end.

(** A row of table [tickets]; the fields are the columns in order, so
    that [row[1]] is [ticket_id], [row[2]] is [user_id], [row[4]] is
    [status] and [row[7]] is [support_channel_id]. *)
Record Ticket := mkTicket {
  row_id : Z;
  ticket_id : string;
  user_id : Z;
  username : string;
  status : Status;
  created_at : string;
  closed_at : option string;
  support_channel_id : Z;
  category : string
}.

(** A row of table [ticket_messages]. *)
Record TicketMessage := mkTicketMessage {
  msg_row_id : Z;
  msg_ticket_id : string;
  author_id : Z;
  author_name : string;
  message_content : string;
  timestamp : string
}.

Record DatabaseState := mkDatabase {
  tickets : list Ticket;
  ticket_messages : list TicketMessage
}.

Module Database.

(** [init_database] on a fresh file: two empty tables. *)
Definition init_database : DatabaseState := mkDatabase [] [].

(** [SELECT * FROM tickets WHERE ticket_id = ?], [fetchone]. *)
Definition get_ticket (d : DatabaseState) (tid : string) : option Ticket :=
  find (fun t => String.eqb (ticket_id t) tid) (tickets d).

(** [INSERT INTO tickets ...]; the [UNIQUE] constraint on [ticket_id]
    raises [IntegrityError], answered by [False] and no insertion.
    [status], [created_at] and [closed_at] take their column
    defaults. *)
Definition create_ticket (now : string) (d : DatabaseState)
    (tid : string) (uid : Z) (uname : string) (chan : Z) (cat : string)
    : bool * DatabaseState :=
  match get_ticket d tid with
  | Some _ => (false, d)
  | None =>
      (true,
       mkDatabase
         (tickets d ++
            [mkTicket (Z.of_nat (length (tickets d)) + 1) tid uid uname
               status_open now None chan cat])
         (ticket_messages d))
  end.

Definition close_row (now : string) (tid : string) (t : Ticket) : Ticket :=
  if String.eqb (ticket_id t) tid then
    mkTicket (row_id t) (ticket_id t) (user_id t) (username t)
      status_closed (created_at t) (Some now)
      (support_channel_id t) (category t)
  else t.

(** [UPDATE tickets SET status = 'closed', closed_at = CURRENT_TIMESTAMP
    WHERE ticket_id = ?] *)
Definition close_ticket (now : string) (d : DatabaseState) (tid : string)
    : DatabaseState :=
  mkDatabase (map (close_row now tid) (tickets d)) (ticket_messages d).

(** [SELECT * FROM tickets WHERE user_id = ? AND status = 'open'],
    [fetchone]. *)
Definition get_user_open_ticket (d : DatabaseState) (uid : Z)
    : option Ticket :=
  find (fun t => Z.eqb (user_id t) uid && Status_eqb (status t) status_open)
    (tickets d).

(** [INSERT INTO ticket_messages ...]; no check that the ticket
    exists (SQLite does not enforce the foreign key by default). *)
Definition add_message (now : string) (d : DatabaseState)
    (tid : string) (aid : Z) (aname : string) (content : string)
    : DatabaseState :=
  mkDatabase (tickets d)
    (ticket_messages d ++
       [mkTicketMessage (Z.of_nat (length (ticket_messages d)) + 1)
          tid aid aname content now]).

(** The query of [handle_support_message]:
    [SELECT * FROM tickets WHERE support_channel_id = ? AND status = 'open'],
    [fetchone]. *)
Definition get_open_ticket_by_channel (d : DatabaseState) (chan : Z)
    : option Ticket :=
  find (fun t => Z.eqb (support_channel_id t) chan
                 && Status_eqb (status t) status_open)
    (tickets d).

End Database.

(* ================================================================== *)
(** ** The chat platform as the handlers see it *)

Inductive Color := blue | green | red | orange | yellow.

Record Embed := mkEmbed {
  title : string;
  description : string;
  color : Color;
  embed_timestamp : option Z;
  embed_author : option string;
  fields : list (string * string)
}.

Definition add_field (e : Embed) (name value : string) : Embed :=
  mkEmbed (title e) (description e) (color e) (embed_timestamp e)
    (embed_author e) (fields e ++ [(name, value)]).

Definition set_author (e : Embed) (name : string) : Embed :=
  mkEmbed (title e) (description e) (color e) (embed_timestamp e)
    (Some name) (fields e).

(** The two views of the source, as attached to a message. *)
Inductive View :=
| TicketView
| TicketCloseView (ticket_id : string).

(** [discord.User] / [discord.Member] as far as the handlers read it.
    [user_str] is [str(user)].  Only a [discord.Member] has the
    attribute [roles] (the role ids of the member in the guild of the
    interaction); a [discord.User], as the invoker of a command in the
    bot's direct channel, has none. *)
Record User := mkUser {
  uid : Z;            (* user.id *)
  uname : string;     (* user.name *)
  user_str : string;  (* str(user) *)
  is_bot : bool;      (* user.bot *)
  roles : option (list Z) (* [role.id for role in user.roles] *)
}.

(** [user.mention] *)
Definition mention (u : User) : string :=
  "<@" ++ PyStr.str_of_int (uid u) ++ ">".

Inductive Channel :=
| DMChannel (channel_id : Z)
| TextChannel (guild_id : Z) (channel_id : Z) (channel_name : string).

Definition channel_id_of (c : Channel) : Z :=
  match c with
  | DMChannel i => i
  | TextChannel _ i _ => i
  end.

(** [channel.mention] *)
Definition channel_mention (c : Channel) : string :=
  "<#" ++ PyStr.str_of_int (channel_id_of c) ++ ">".

Record Message := mkMessage {
  message_id : Z;
  msg_author : User;      (* message.author *)
  msg_content : string;   (* message.content *)
  msg_channel : Channel   (* message.channel *)
}.

Record Interaction := mkInteraction {
  interaction_user : User;        (* interaction.user *)
  interaction_channel : Channel   (* interaction.channel *)
}.

Record Guild := mkGuild {
  guild_name : string;
  categories : list Z;
  guild_roles : list Z
}.

(** Outbound calls on the platform. *)
Inductive Action :=
| CreateTextChannel (name : string) (category : Z) (new_channel : Z)
| ResponseSendMessage (text : option string) (embed : option Embed)
    (ephemeral : bool)
| ResponseEditMessage (embed : Embed)
| ChannelSend (channel_id : Z) (text : option string) (embed : option Embed)
    (view : option View)
| UserSend (user_id : Z) (embed : Embed)
| AddReaction (message_id : Z) (emoji : string).

(** [discord.Forbidden] is the one exception class the source names;
    every other [Exception] is [OtherException]. *)
Inductive exn := Forbidden | OtherException.

Inductive result (A : Type) : Type :=
| Ok (a : A)
| Raise (e : exn).
Arguments Ok {A} a.
Arguments Raise {A} e.

(** The errors [on_command_error] tells apart. *)
Inductive CommandError :=
| MissingPermissions
| CommandNotFound
| OtherCommandError.

(** What the outside world answers while one event is handled. *)
Record Env := mkEnv {
  (** [int(datetime.now().timestamp())] *)
  py_now : Z;
  (** [datetime.now().strftime('%Y-%m-%d %H:%M:%S')] *)
  strftime_now : string;
  (** SQLite's [CURRENT_TIMESTAMP], the text it stores *)
  sql_now : string;
  (** [bot.get_guild] *)
  get_guild : Z -> option Guild;
  (** [bot.get_user]: is the user in the cache *)
  get_user : Z -> bool;
  (** [bot.get_channel]: is the channel in the cache *)
  get_channel : Z -> bool;
  (** [guild.create_text_channel(name, category)]: the id of the new
      channel, or the exception raised *)
  create_text_channel : string -> Z -> result Z;
  (** the fate of every other outbound call: accepted or raising *)
  deliver : Action -> option exn;
  (** [openai.ChatCompletion.create(...)] followed by
      [response.choices[0].message.content]: the text, or the exception
      raised on the way *)
  chat_completion : string -> result string;
  (** [commands.Bot.invoke] on a message that starts with the command
      prefix: the calls the library's prefix command (the default
      [help]) got accepted, and the error it dispatches to
      [on_command_error], if any *)
  invoke_prefix_command : Message -> list Action * option CommandError
}.

Record World := mkWorld {
  db : DatabaseState;
  outbox : list Action
}.

Definition init_world : World := mkWorld Database.init_database [].

(* ================================================================== *)
(** ** The handler monad *)

Definition M (A : Type) : Type := World -> result A * World.

Definition ret {A} (a : A) : M A := fun w => (Ok a, w).

Definition bind {A B} (c : M A) (k : A -> M B) : M B :=
  fun w =>
    match c w with
    | (Ok a, w') => k a w'
    | (Raise e, w') => (Raise e, w')
    end.

Definition raise {A} (e : exn) : M A := fun w => (Raise e, w).

Notation "x <- c ;; k" := (bind c (fun x => k))
  (at level 61, c at next level, right associativity).
Notation "c ;; k" := (bind c (fun _ => k))
  (at level 61, right associativity).

(** [try: c  except Exception as e: h e] *)
Definition try_except {A} (c : M A) (h : exn -> M A) : M A :=
  fun w =>
    match c w with
    | (Ok a, w') => (Ok a, w')
    | (Raise e, w') => h e w'
    end.

(** [try: c  except discord.Forbidden: h] *)
Definition try_except_Forbidden {A} (c : M A) (h : M A) : M A :=
  fun w =>
    match c w with
    | (Raise Forbidden, w') => h w'
    | r => r
    end.

(** A read of the database. *)
Definition query {A} (f : DatabaseState -> A) : M A :=
  fun w => (Ok (f (db w)), w).

(** A committed write to the database. *)
Definition execute (f : DatabaseState -> DatabaseState) : M unit :=
  fun w => (Ok tt, mkWorld (f (db w)) (outbox w)).

(** An outbound call: recorded when the platform accepts it. *)
Definition perform (env : Env) (a : Action) : M unit :=
  fun w =>
    match deliver env a with
    | None => (Ok tt, mkWorld (db w) (outbox w ++ [a]))
    | Some e => (Raise e, w)
    end.

Definition run {A} (c : M A) (w : World) : World := snd (c w).

(* ================================================================== *)
(** ** The handlers *)

(** The newline of Python's ["\n"]. *)
Definition nl : string := String (ascii_of_nat 10) EmptyString.

Definition Embed_new (t d : string) (c : Color) : Embed :=
  mkEmbed t d c None None [].

Section Handlers.

Variable config : Config.
Variable env : Env.

Definition send_message (text : string) : M unit :=
  perform env (ResponseSendMessage (Some text) None true).

(** The invoker is a member who holds the configured staff role. *)
Definition has_staff_role (u : User) : bool :=
  match roles u with
  | Some rs => existsb (Z.eqb (STAFF_ROLE_ID config)) rs
  | None => false
  end.

(** [config.STAFF_ROLE_ID in [role.id for role in interaction.user.roles]]:
    reading [roles] of a user who is not a member raises
    [AttributeError]. *)
Definition staff_check (u : User) : M bool :=
  match roles u with
  | Some rs => ret (existsb (Z.eqb (STAFF_ROLE_ID config)) rs)
  | None => raise OtherException
  end.

(** [generate_ticket_id] *)
Definition generate_ticket_id (user_id : Z) : string :=
  "ticket-" ++ PyStr.str_of_int user_id ++ "-"
    ++ PyStr.str_of_int (py_now env).

(** The provider request of [get_ai_response], with the reading of
    [response.choices[0].message.content]. *)
Definition ChatCompletion_create (question : string) : M string :=
  fun w => (chat_completion env question, w).

(** [get_ai_response] *)
Definition get_ai_response (question : string) : M string :=
  if negb (PyStr.truthy (OPENAI_API_KEY config)) then
    ret "AI assistance is not configured. Please contact a staff member for help."
  else
    try_except
      (response <- ChatCompletion_create question ;;
       ret (PyStr.strip response))
      (fun _ =>
         ret "I'm having trouble accessing AI assistance right now. Please contact a staff member for help.").

(** *** [TicketView.handle_ticket_creation] *)

Definition ticket_open_embed (ticket_id : string) (u : User) : Embed :=
  add_field
    (add_field
       (Embed_new ("🎫 Ticket: " ++ ticket_id)
          ("**User:** " ++ mention u ++ " (" ++ user_str u ++ ")" ++ nl
             ++ "**Created:** " ++ strftime_now env)
          blue)
       "Status" "🟢 Open")
    "Instructions"
    "User will send their query via DM. Staff can respond here.".

Definition ticket_created_dm_embed (ticket_id : string) : Embed :=
  add_field
    (add_field
       (Embed_new "🎫 Ticket Created Successfully!"
          ("Your ticket `" ++ ticket_id ++ "` has been created.")
          green)
       "What's Next?"
       "Please describe your issue or question in detail. Our support team will respond as soon as possible.")
    "Need Quick Help?"
    "Type your question starting with `ai:` for instant AI assistance (e.g., `ai: How do I reset my password?`)".

Definition handle_ticket_creation (interaction : Interaction) : M unit :=
  let u := interaction_user interaction in
  existing_ticket <- query (fun d => Database.get_user_open_ticket d (uid u)) ;;
  match existing_ticket with
  | Some t =>
      send_message ("You already have an open ticket: " ++ ticket_id t)
  | None =>
      let ticket_id := generate_ticket_id (uid u) in
      try_except
        (match get_guild env (SUPPORT_GUILD_ID config) with
         | None =>
             send_message "❌ Support server not found. Please contact an administrator."
         | Some support_guild =>
             match find (Z.eqb (TICKET_CATEGORY_ID config))
                        (categories support_guild) with
             | None =>
                 send_message "❌ Ticket category not found. Please contact an administrator."
             | Some category =>
                 if negb (existsb (Z.eqb (STAFF_ROLE_ID config))
                                  (guild_roles support_guild)) then
                   send_message "❌ Staff role not found. Please contact an administrator."
                 else
                   support_channel <-
                     (fun w =>
                        match create_text_channel env
                                ("ticket-" ++ uname u) category with
                        | Ok c =>
                            (Ok c,
                             mkWorld (db w)
                               (outbox w ++
                                  [CreateTextChannel ("ticket-" ++ uname u)
                                     category c]))
                        | Raise e => (Raise e, w)
                        end) ;;
                   execute (fun d =>
                              snd (Database.create_ticket (sql_now env) d
                                     ticket_id (uid u) (user_str u)
                                     support_channel "general")) ;;
                   perform env
                     (ChannelSend support_channel
                        (Some ("<@&" ++ PyStr.str_of_int (STAFF_ROLE_ID config)
                                 ++ ">"))
                        (Some (ticket_open_embed ticket_id u))
                        (Some (TicketCloseView ticket_id))) ;;
                   try_except_Forbidden
                     (perform env
                        (UserSend (uid u) (ticket_created_dm_embed ticket_id)) ;;
                      send_message
                        ("✅ Ticket created successfully! Check your DMs for details. Ticket ID: `"
                           ++ ticket_id ++ "`"))
                     (send_message
                        ("✅ Ticket created! However, I couldn't send you a DM. Please check your privacy settings."
                           ++ nl ++ "Ticket ID: `" ++ ticket_id ++ "`"))
             end
         end)
        (fun _ =>
           send_message "❌ An error occurred while creating your ticket. Please contact an administrator.")
  end.

(** *** [TicketCloseView.close_ticket_button]; [ticket_id] is
    [self.ticket_id] of the view the button belongs to. *)

Definition ticket_closed_embed (ticket_id : string) (u : User) : Embed :=
  add_field
    (Embed_new ("🎫 Ticket: " ++ ticket_id)
       ("**Closed by:** " ++ mention u ++ nl
          ++ "**Closed at:** " ++ strftime_now env)
       red)
    "Status" "🔴 Closed".

Definition ticket_closed_dm_embed (ticket_id : string) : Embed :=
  add_field
    (Embed_new "🎫 Ticket Closed"
       ("Your ticket `" ++ ticket_id
          ++ "` has been closed by our support team.")
       orange)
    "Need More Help?"
    "Feel free to create a new ticket if you need further assistance.".

Definition close_ticket_button (ticket_id : string)
    (interaction : Interaction) : M unit :=
  is_staff <- staff_check (interaction_user interaction) ;;
  if negb is_staff then
    send_message "❌ Only staff members can close tickets."
  else
    execute (fun d => Database.close_ticket (sql_now env) d ticket_id) ;;
    perform env
      (ResponseEditMessage
         (ticket_closed_embed ticket_id (interaction_user interaction))) ;;
    ticket_info <- query (fun d => Database.get_ticket d ticket_id) ;;
    match ticket_info with
    | Some t =>
        if get_user env (user_id t) then
          try_except_Forbidden
            (perform env
               (UserSend (user_id t) (ticket_closed_dm_embed ticket_id)))
            (ret tt)
        else ret tt
    | None => ret tt
    end.

(** *** [on_ready]: the persistent views it registers. *)

Definition on_ready : list View :=
  match get_guild env (MAIN_GUILD_ID config) with
  | None => []
  | Some _ =>
      match get_guild env (SUPPORT_GUILD_ID config) with
      | None => []
      | Some _ => [TicketView; TicketCloseView ""]
      end
  end.

(** *** [handle_dm_message] *)

Definition ai_embed (ai_response : string) : Embed :=
  add_field
    (Embed_new "🤖 AI Assistant" ai_response blue)
    "Need More Help?"
    "If this doesn't solve your issue, you can create a ticket for human support.".

Definition suggest_ticket_embed : Embed :=
  add_field
    (add_field
       (Embed_new "💬 Message Received"
          "I see you'd like some help! You don't currently have an open support ticket."
          yellow)
       "Create a Ticket"
       "To get help from our support team, please create a ticket in the main server or use the button below.")
    "Quick AI Help"
    "For instant assistance, start your message with `ai:` (e.g., `ai: How do I reset my password?`)".

Definition forward_to_staff_embed (u : User) (content : string) : Embed :=
  mkEmbed ("💬 Message from " ++ user_str u) content green
    (Some (py_now env)) None [].

Definition handle_dm_message (message : Message) : M unit :=
  let u := msg_author message in
  let content := msg_content message in
  ticket_info <- query (fun d => Database.get_user_open_ticket d (uid u)) ;;
  match ticket_info with
  | None =>
      if PyStr.startswith (PyStr.lower content) "ai:" then
        let question := PyStr.strip (PyStr.slice_from 3 content) in
        ai_response <- get_ai_response question ;;
        perform env
          (ChannelSend (channel_id_of (msg_channel message)) None
             (Some (ai_embed ai_response)) None)
      else
        perform env
          (ChannelSend (channel_id_of (msg_channel message)) None
             (Some suggest_ticket_embed) (Some TicketView))
  | Some t =>
      let ticket_id := ticket_id t in
      let support_channel_id := support_channel_id t in
      if get_channel env support_channel_id then
        execute (fun d =>
                   Database.add_message (sql_now env) d ticket_id
                     (uid u) (user_str u) content) ;;
        perform env
          (ChannelSend support_channel_id None
             (Some (forward_to_staff_embed u content)) None) ;;
        perform env (AddReaction (message_id message) "✅")
      else ret tt
  end.

(** *** [handle_support_message] *)

Definition support_response_embed (staff : User) (content : string)
    : Embed :=
  set_author
    (mkEmbed "💬 Support Response" content blue (Some (py_now env)) None [])
    (user_str staff).

Definition handle_support_message (message : Message) : M unit :=
  if is_bot (msg_author message) then ret tt
  else
    match msg_channel message with
    | DMChannel _ =>
        (* a direct channel has no [name]; [on_message] never routes
           one here *)
        raise OtherException
    | TextChannel _ chan channel_name =>
        if PyStr.startswith channel_name "ticket-" then
          ticket_info <-
            query (fun d => Database.get_open_ticket_by_channel d chan) ;;
          match ticket_info with
          | Some t =>
              execute (fun d =>
                         Database.add_message (sql_now env) d (ticket_id t)
                           (uid (msg_author message))
                           (user_str (msg_author message))
                           (msg_content message)) ;;
              if get_user env (user_id t) then
                try_except_Forbidden
                  (perform env
                     (UserSend (user_id t)
                        (support_response_embed (msg_author message)
                           (msg_content message))) ;;
                   perform env (AddReaction (message_id message) "✅"))
                  (perform env
                     (ChannelSend chan
                        (Some "⚠️ Could not send DM to user (DMs disabled)")
                        None None))
              else ret tt
          | None => ret tt
          end
        else ret tt
    end.

(** *** [on_command_error], with [ctx.send] going to the channel of
    the message. *)

Definition on_command_error (message : Message) (error : CommandError)
    : M unit :=
  match error with
  | MissingPermissions =>
      perform env
        (ChannelSend (channel_id_of (msg_channel message))
           (Some "❌ You don't have permission to use this command.")
           None None)
  | CommandNotFound => ret tt
  | OtherCommandError => ret tt
  end.

(** *** [bot.process_commands], the library's prefix commands under
    [command_prefix='!'].  A message of a bot, or one that does not
    start with the prefix, invokes nothing.  Otherwise the library
    runs the command it finds (the bot defines none, so this is its
    default [help]), which sends what the oracle says, and hands any
    error to [on_command_error], an event of its own whose exceptions
    stay with the library. *)

Definition process_commands (message : Message) : M unit :=
  if is_bot (msg_author message) then ret tt
  else if PyStr.startswith (msg_content message) "!" then
    let '(sent, error) := invoke_prefix_command env message in
    (fun w => (Ok tt, mkWorld (db w) (outbox w ++ sent))) ;;
    match error with
    | Some e => try_except (on_command_error message e) (fun _ => ret tt)
    | None => ret tt
    end
  else ret tt.

(** The calls [process_commands] adds to the outbox. *)
Definition prefix_command_calls (message : Message) : list Action :=
  if is_bot (msg_author message) then []
  else if PyStr.startswith (msg_content message) "!" then
    let '(sent, error) := invoke_prefix_command env message in
    sent ++
    match error with
    | Some MissingPermissions =>
        let denial :=
          ChannelSend (channel_id_of (msg_channel message))
            (Some "❌ You don't have permission to use this command.")
            None None in
        match deliver env denial with
        | None => [denial]
        | Some _ => []
        end
    | _ => []
    end
  else [].

Definition on_message (message : Message) : M unit :=
  if is_bot (msg_author message) then ret tt
  else
    (match msg_channel message with
     | DMChannel _ => handle_dm_message message
     | TextChannel guild _ _ =>
         if Z.eqb guild (SUPPORT_GUILD_ID config) then
           handle_support_message message
         else ret tt
     end) ;;
    process_commands message.

(** *** Slash commands *)

Definition panel_embed : Embed :=
  add_field
    (add_field
       (Embed_new "🎫 Support Ticket System"
          "Need help? Create a support ticket and our team will assist you!"
          blue)
       "How it works:"
       ("1️⃣ Click the button below to create a ticket" ++ nl
          ++ "2️⃣ You'll receive a DM to describe your issue" ++ nl
          ++ "3️⃣ Our support team will respond via the ticket" ++ nl
          ++ "4️⃣ Your conversation happens through DMs"))
    "Quick AI Help"
    "For instant assistance, DM the bot with your question starting with `ai:`".

Definition setup_tickets (interaction : Interaction)
    (channel : option Channel) : M unit :=
  let channel :=
    match channel with
    | Some c => c
    | None => interaction_channel interaction
    end in
  perform env
    (ChannelSend (channel_id_of channel) None (Some panel_embed)
       (Some TicketView)) ;;
  send_message ("✅ Ticket panel set up in " ++ channel_mention channel ++ "!").

Definition close_ticket_command (interaction : Interaction)
    (ticket_id : string) : M unit :=
  is_staff <- staff_check (interaction_user interaction) ;;
  if negb is_staff then
    send_message "❌ Only staff members can close tickets."
  else
    ticket_info <- query (fun d => Database.get_ticket d ticket_id) ;;
    match ticket_info with
    | None => send_message "❌ Ticket not found."
    | Some t =>
        if Status_eqb (status t) status_closed then
          send_message "❌ Ticket is already closed."
        else
          execute (fun d => Database.close_ticket (sql_now env) d ticket_id) ;;
          (if get_user env (user_id t) then
             try_except_Forbidden
               (perform env
                  (UserSend (user_id t)
                     (Embed_new "🎫 Ticket Closed"
                        ("Your ticket `" ++ ticket_id
                           ++ "` has been closed by "
                           ++ mention (interaction_user interaction) ++ ".")
                        orange)))
               (ret tt)
           else ret tt) ;;
          send_message ("✅ Ticket `" ++ ticket_id ++ "` has been closed.")
    end.

Definition ticket_info_embed (ticket_id : string) (t : Ticket) : Embed :=
  let is_open := Status_eqb (status t) status_open in
  let e :=
    add_field
      (add_field
         (add_field
            (Embed_new ("🎫 Ticket Information: " ++ ticket_id)
               "" (if is_open then blue else red))
            "User"
            ((if get_user env (user_id t)
              then "<@" ++ PyStr.str_of_int (user_id t) ++ ">"
              else "Unknown")
               ++ " (" ++ username t ++ ")"))
         "Status"
         ((if is_open then "🟢" else "🔴") ++ " "
            ++ (if is_open then "Open" else "Closed")))
      "Created" (created_at t) in
  if PyStr.truthy (closed_at t) then
    add_field e "Closed"
      (match closed_at t with Some c => c | None => "" end)
  else e.

Definition ticket_info (interaction : Interaction) (ticket_id : string)
    : M unit :=
  is_staff <- staff_check (interaction_user interaction) ;;
  if negb is_staff then
    send_message "❌ Only staff members can view ticket information."
  else
    ticket_info <- query (fun d => Database.get_ticket d ticket_id) ;;
    match ticket_info with
    | None => send_message "❌ Ticket not found."
    | Some t =>
        perform env
          (ResponseSendMessage None (Some (ticket_info_embed ticket_id t))
             true)
    end.

(** *** One inbound event and its handler *)

Inductive Event :=
| CreateTicketButton (interaction : Interaction)
| CloseTicketButton (ticket_id : string) (interaction : Interaction)
| MessageEvent (message : Message)
| SetupCommand (interaction : Interaction) (channel : option Channel)
| CloseCommand (interaction : Interaction) (ticket_id : string)
| TicketInfoCommand (interaction : Interaction) (ticket_id : string).

Definition dispatch (ev : Event) : M unit :=
  match ev with
  | CreateTicketButton i => handle_ticket_creation i
  | CloseTicketButton tid i => close_ticket_button tid i
  | MessageEvent m => on_message m
  | SetupCommand i c => setup_tickets i c
  | CloseCommand i tid => close_ticket_command i tid
  | TicketInfoCommand i tid => ticket_info i tid
  end.

End Handlers.

(** Sequential executions: the worlds the bot can be in, started on an
    empty database and handling one event after the other, each under
    the configuration the process was started with (the database file
    outlives a restart with another configuration) and whatever the
    outside world answers at that moment. *)
Inductive reachable : World -> Prop :=
| reachable_init : reachable init_world
| reachable_step (config : Config) (env : Env) (ev : Event) (w : World) :
    reachable w -> reachable (run (dispatch config env ev) w).

(* ================================================================== *)
(** ** Vocabulary of the properties *)

(** The bytes of one whitespace character, for given tests of the
    characters of one, two and three bytes. *)
Definition space_token (w1 : ascii -> bool) (w2 : ascii -> ascii -> bool)
    (w3 : ascii -> ascii -> ascii -> bool) (t : string) : bool :=
  match t with
  | String a EmptyString => w1 a
  | String a (String b EmptyString) => w2 a b
  | String a (String b (String c EmptyString)) => w3 a b c
  | _ => false
  end.

(** The UTF-8 bytes of one character for which [str.isspace] holds. *)
Definition is_space_char (t : string) : bool :=
  space_token PyStr.isspace PyStr.isspace2 PyStr.isspace3 t.

(** Strings made of whitespace characters only. *)
Inductive spaces_of (tok : string -> bool) : string -> Prop :=
| spaces_nil : spaces_of tok EmptyString
| spaces_cons (t s : string) :
    tok t = true -> spaces_of tok s -> spaces_of tok (t ++ s).

Definition whitespace (s : string) : Prop := spaces_of is_space_char s.

Definition begins_with (tok : string -> bool) (s : string) : Prop :=
  exists t r, tok t = true /\ s = t ++ r.

Definition ends_with (tok : string -> bool) (s : string) : Prop :=
  exists t r, tok t = true /\ s = r ++ t.

(** [s] is [text] with whitespace around it, and [text] neither begins
    nor ends with a whitespace character: what [s.strip()] returns. *)
Definition stripped_of (s text : string) : Prop :=
  (exists l r, s = l ++ text ++ r /\ whitespace l /\ whitespace r)
  /\ ~ begins_with is_space_char text
  /\ ~ ends_with is_space_char text.

(** Decimal digits, for the shape of [str(n)]. *)
Definition is_digit (c : ascii) : bool :=
  let n := nat_of_ascii c in ((48 <=? n) && (n <=? 57))%nat.

Fixpoint all_digits (s : string) : bool :=
  match s with
  | EmptyString => true
  | String c r => is_digit c && all_digits r
  end.

(** The rows of [tickets] that are open and belong to [u]. *)
Definition open_tickets_of (d : DatabaseState) (u : Z) : list Ticket :=
  filter (fun t => Z.eqb (user_id t) u && Status_eqb (status t) status_open)
    (tickets d).

(** At most one open ticket per user. *)
Definition one_open_per_user (d : DatabaseState) : Prop :=
  forall u, (length (open_tickets_of d u) <= 1)%nat.

(** Every ticket id was made by [generate_ticket_id] for the owner of
    the row, at some instant. *)
Definition generated_id (t : Ticket) : Prop :=
  exists now : Z,
    ticket_id t =
    "ticket-" ++ PyStr.str_of_int (user_id t) ++ "-" ++ PyStr.str_of_int now.

Definition generated_ids (d : DatabaseState) : Prop :=
  Forall generated_id (tickets d).

(** No row of [tickets] belongs to [u], open or closed. *)
Definition no_ticket_of (d : DatabaseState) (u : Z) : Prop :=
  forall t, In t (tickets d) -> user_id t <> u.

(** The four writes the handlers make to the database, with the
    condition under which the insertion of a ticket is reached. *)
Inductive db_step (d : DatabaseState) : DatabaseState -> Prop :=
| db_step_none : db_step d d
| db_step_close (now tid : string) :
    db_step d (Database.close_ticket now d tid)
| db_step_message (now tid : string) (aid : Z) (aname content : string) :
    db_step d (Database.add_message now d tid aid aname content)
| db_step_create (now : string) (at_ : Z) (u : Z) (uname : string)
    (chan : Z) (cat : string) :
    Database.get_user_open_ticket d u = None ->
    db_step d
      (snd (Database.create_ticket now d
              ("ticket-" ++ PyStr.str_of_int u ++ "-" ++ PyStr.str_of_int at_)
              u uname chan cat)).

(** How the staff channel of a new ticket comes about, or fails to:
    the lookups of [handle_ticket_creation] and the creation itself. *)
Inductive staff_channel_fails (config : Config) (env : Env) (name : string)
  : Prop :=
| fails_no_guild :
    get_guild env (SUPPORT_GUILD_ID config) = None ->
    staff_channel_fails config env name
| fails_no_category (g : Guild) :
    get_guild env (SUPPORT_GUILD_ID config) = Some g ->
    find (Z.eqb (TICKET_CATEGORY_ID config)) (categories g) = None ->
    staff_channel_fails config env name
| fails_no_role (g : Guild) :
    get_guild env (SUPPORT_GUILD_ID config) = Some g ->
    existsb (Z.eqb (STAFF_ROLE_ID config)) (guild_roles g) = false ->
    staff_channel_fails config env name
| fails_creation (g : Guild) (cat : Z) (e : exn) :
    get_guild env (SUPPORT_GUILD_ID config) = Some g ->
    find (Z.eqb (TICKET_CATEGORY_ID config)) (categories g) = Some cat ->
    create_text_channel env name cat = Raise e ->
    staff_channel_fails config env name.

Inductive staff_channel_created (config : Config) (env : Env) (name : string)
  (cat chan : Z) : Prop :=
| created_channel (g : Guild) :
    get_guild env (SUPPORT_GUILD_ID config) = Some g ->
    find (Z.eqb (TICKET_CATEGORY_ID config)) (categories g) = Some cat ->
    existsb (Z.eqb (STAFF_ROLE_ID config)) (guild_roles g) = true ->
    create_text_channel env name cat = Ok chan ->
    staff_channel_created config env name cat chan.

(** ** A concrete deployment, for the examples *)

Module Scenario.

Definition config : Config := mkConfig 1 2 7 5 None.

Definition main_guild : Guild := mkGuild "community" [] [].
Definition support_guild : Guild := mkGuild "support" [5] [7].

Definition guilds (g : Z) : option Guild :=
  if Z.eqb g 1 then Some main_guild
  else if Z.eqb g 2 then Some support_guild
  else None.

(** No message invokes a prefix command. *)
Definition no_prefix_command (m : Message)
  : list Action * option CommandError := ([], None).

(** What the default [help] command answers, as far as it matters. *)
Definition help_text (m : Message) : Action :=
  ChannelSend (channel_id_of (msg_channel m)) (Some "No Category: help")
    None None.

(** Everything is found and every call is accepted; the provider is
    not reachable. *)
Definition env_at (now : Z) (text : string) : Env :=
  mkEnv now text text guilds (fun _ => true) (fun _ => true)
    (fun _ _ => Ok 900) (fun _ => None) (fun _ => Raise OtherException)
    no_prefix_command.

(** As [env_at], with the library answering a prefix command with its
    help text. *)
Definition env_help (now : Z) (text : string) : Env :=
  mkEnv now text text guilds (fun _ => true) (fun _ => true)
    (fun _ _ => Ok 900) (fun _ => None) (fun _ => Raise OtherException)
    (fun m => ([help_text m], None)).

(** The support guild is not in the cache. *)
Definition env_no_guild : Env :=
  mkEnv 1000 "2024-01-01 09:00:00" "2024-01-01 09:00:00"
    (fun _ => None) (fun _ => true) (fun _ => true)
    (fun _ _ => Ok 900) (fun _ => None) (fun _ => Raise OtherException)
    no_prefix_command.

(** No channel is in the cache. *)
Definition env_no_channel : Env :=
  mkEnv 1100 "2024-01-01 09:30:00" "2024-01-01 09:30:00"
    guilds (fun _ => true) (fun _ => false)
    (fun _ _ => Ok 900) (fun _ => None) (fun _ => Raise OtherException)
    no_prefix_command.

(** No user is in the cache. *)
Definition env_no_user : Env :=
  mkEnv 1100 "2024-01-01 09:30:00" "2024-01-01 09:30:00"
    guilds (fun _ => false) (fun _ => true)
    (fun _ _ => Ok 900) (fun _ => None) (fun _ => Raise OtherException)
    no_prefix_command.

(** Sending into a channel is refused, everything else accepted. *)
Definition env_channel_send_refused : Env :=
  mkEnv 1100 "2024-01-01 09:30:00" "2024-01-01 09:30:00"
    guilds (fun _ => true) (fun _ => true)
    (fun _ _ => Ok 900)
    (fun a => match a with
              | ChannelSend _ _ _ _ => Some OtherException
              | _ => None
              end)
    (fun _ => Raise OtherException)
    no_prefix_command.

Definition alice : User := mkUser 42 "alice" "alice#0001" false (Some []).
Definition bob : User := mkUser 43 "bob" "bob#0003" false (Some []).
Definition sam : User := mkUser 77 "sam" "sam#0002" false (Some [7]).

(** Alice as the bot meets her in her direct channel: a plain user,
    without roles. *)
Definition alice_in_dm : User := mkUser 42 "alice" "alice#0001" false None.

Definition panel : Channel := TextChannel 1 10 "support".
Definition alice_ticket_channel : Channel := TextChannel 2 900 "ticket-alice".

Definition env_open : Env := env_at 1000 "2024-01-01 09:00:00".
Definition env_close1 : Env := env_at 2000 "2024-01-01 10:00:00".
Definition env_close2 : Env := env_at 3000 "2024-01-01 11:00:00".

(** Alice has pressed the create button: ticket [ticket-42-1000]. *)
Definition alice_has_ticket : World :=
  run (dispatch config env_open
         (CreateTicketButton (mkInteraction alice panel)))
      init_world.

Definition alice_ticket : Ticket :=
  mkTicket 1 "ticket-42-1000" 42 "alice#0001" status_open
    "2024-01-01 09:00:00" None 900 "general".

(** Then Sam has closed it with the [close] command. *)
Definition closed_by_command : World :=
  run (dispatch config env_close1
         (CloseCommand (mkInteraction sam alice_ticket_channel)
            "ticket-42-1000"))
      alice_has_ticket.

(** Then Sam presses the close button under the ticket announcement. *)
Definition button_after_command : World :=
  run (dispatch config env_close2
         (CloseTicketButton "ticket-42-1000"
            (mkInteraction sam alice_ticket_channel)))
      closed_by_command.

(** U+00A0, no-break space, and U+2003, em space, in UTF-8. *)
Definition nbsp : string :=
  String (ascii_of_nat 194) (String (ascii_of_nat 160) EmptyString).
Definition em_space : string :=
  String (ascii_of_nat 226)
    (String (ascii_of_nat 128) (String (ascii_of_nat 131) EmptyString)).

Definition alice_dm (text : string) : Message :=
  mkMessage 5001 alice text (DMChannel 4200).

Definition sam_reply : Message :=
  mkMessage 5002 sam "please confirm your email" alice_ticket_channel.

(** The owner's direct channel is closed ([discord.Forbidden]);
    everything else is accepted. *)
Definition env_dm_forbidden (now : Z) (text : string) : Env :=
  mkEnv now text text guilds (fun _ => true) (fun _ => true)
    (fun _ _ => Ok 901)
    (fun a => match a with
              | UserSend _ _ => Some Forbidden
              | _ => None
              end)
    (fun _ => Raise OtherException)
    no_prefix_command.

(** Alice asks for a ticket again within the second in which her first
    one was opened, after it has been closed. *)
Definition reopened_same_second : World :=
  run (dispatch config env_open
         (CreateTicketButton (mkInteraction alice panel)))
      closed_by_command.

End Scenario.

(* ================================================================== *)
(** ** Further vocabulary: what the store keeps *)

(** The columns of a ticket that no statement of the source updates. *)
Definition ticket_key (t : Ticket)
  : Z * string * Z * string * string * Z * string :=
  (row_id t, ticket_id t, user_id t, username t, created_at t,
   support_channel_id t, category t).

(** The ticket ids of the store are pairwise distinct. *)
Definition unique_ids (d : DatabaseState) : Prop :=
  NoDup (map ticket_id (tickets d)).

(** [closed_at] is [NULL] exactly on the open tickets. *)
Definition closed_at_follows_status (d : DatabaseState) : Prop :=
  Forall (fun t => status t = status_open <-> closed_at t = None)
    (tickets d).

(** Every record of the history carries the id of a stored ticket. *)
Definition history_refers_to_tickets (d : DatabaseState) : Prop :=
  Forall (fun r => exists t, In t (tickets d)
                             /\ ticket_id t = msg_ticket_id r)
    (ticket_messages d).

(** The writes of the handlers, with what the handler knows when it
    makes them: a message is recorded under the id of a stored open
    ticket, a ticket is inserted for a user without an open one. *)
Inductive db_write (d : DatabaseState) : DatabaseState -> Prop :=
| db_write_none : db_write d d
| db_write_close (now tid : string) :
    db_write d (Database.close_ticket now d tid)
| db_write_message (now : string) (t : Ticket) (aid : Z)
    (aname content : string) :
    In t (tickets d) -> status t = status_open ->
    db_write d (Database.add_message now d (ticket_id t) aid aname content)
| db_write_create (now : string) (at_ : Z) (u : Z) (uname : string)
    (chan : Z) :
    Database.get_user_open_ticket d u = None ->
    db_write d
      (snd (Database.create_ticket now d
              ("ticket-" ++ PyStr.str_of_int u ++ "-" ++ PyStr.str_of_int at_)
              u uname chan "general")).

(* ================================================================== *)
(** ** The shape of ticket ids *)

Lemma NilEmpty_all_digits (d : Decimal.uint) :
  all_digits (NilEmpty.string_of_uint d) = true.
Proof. induction d; simpl; auto. Qed.

Lemma NilZero_all_digits (d : Decimal.uint) :
  all_digits (NilZero.string_of_uint d) = true.
Proof. destruct d; try reflexivity; apply NilEmpty_all_digits. Qed.

Lemma NilZero_starts_with_digit (d : Decimal.uint) :
  exists c r, NilZero.string_of_uint d = String c r /\ is_digit c = true.
Proof.
  pose proof (NilZero_all_digits d) as H.
  destruct (NilZero.string_of_uint d) as [|c r] eqn:E.
  - destruct d; discriminate E.
  - simpl in H. apply andb_prop in H. exists c, r. tauto.
Qed.

(** A run of digits followed by a dash is determined by the string. *)
Lemma digits_then_dash (s1 : string) :
  forall s2 x y,
    all_digits s1 = true -> all_digits s2 = true ->
    s1 ++ String "-" x = s2 ++ String "-" y -> s1 = s2.
Proof.
  induction s1 as [|c r IH]; intros [|c' r'] x y H1 H2 E; simpl in *.
  - reflexivity.
  - injection E as Ec _. subst c'. discriminate H2.
  - injection E as Ec _. subst c. discriminate H1.
  - injection E as Ec Er. subst c'.
    apply andb_prop in H1. apply andb_prop in H2.
    f_equal. apply (IH r' x y); tauto.
Qed.

Lemma to_int_not_nil (z : Z) (d : Decimal.uint) :
  Z.to_int z = Decimal.Pos d \/ Z.to_int z = Decimal.Neg d ->
  d <> Decimal.Nil.
Proof.
  destruct z; simpl; intros [H|H]; inversion H; subst;
    try discriminate; apply DecimalPos.Unsigned.to_uint_nonnil.
Qed.

Lemma string_of_uint_inj (d d' : Decimal.uint) :
  d <> Decimal.Nil -> d' <> Decimal.Nil ->
  NilZero.string_of_uint d = NilZero.string_of_uint d' -> d = d'.
Proof.
  intros Hd Hd' E.
  pose proof (NilZero.usu d Hd) as U. rewrite E in U.
  rewrite (NilZero.usu d' Hd') in U. congruence.
Qed.

(** [str(a)] followed by a dash determines [a]: the user id can be read
    back from a ticket id. *)
Lemma str_of_int_then_dash (a b : Z) (x y : string) :
  PyStr.str_of_int a ++ String "-" x = PyStr.str_of_int b ++ String "-" y ->
  a = b.
Proof.
  unfold PyStr.str_of_int. intros E.
  apply DecimalZ.to_int_inj.
  destruct (Z.to_int a) as [d|d] eqn:Ea, (Z.to_int b) as [d'|d'] eqn:Eb;
    simpl in E.
  - f_equal. apply string_of_uint_inj;
      [ eapply to_int_not_nil; eauto | eapply to_int_not_nil; eauto | ].
    eapply digits_then_dash; eauto using NilZero_all_digits.
  - destruct (NilZero_starts_with_digit d) as (c & r & Hs & Hc).
    rewrite Hs in E. simpl in E. injection E as Ec _. subst c. discriminate Hc.
  - destruct (NilZero_starts_with_digit d') as (c & r & Hs & Hc).
    rewrite Hs in E. simpl in E. injection E as Ec _. subst c. discriminate Hc.
  - injection E as E. f_equal. apply string_of_uint_inj;
      [ eapply to_int_not_nil; eauto | eapply to_int_not_nil; eauto | ].
    eapply digits_then_dash; eauto using NilZero_all_digits.
Qed.

Lemma ticket_id_determines_user (a b s t : Z) :
  "ticket-" ++ PyStr.str_of_int a ++ "-" ++ PyStr.str_of_int s =
  "ticket-" ++ PyStr.str_of_int b ++ "-" ++ PyStr.str_of_int t ->
  a = b.
Proof.
  simpl. intros E. injection E as E.
  eapply str_of_int_then_dash; exact E.
Qed.

Lemma ticket_id_not_empty (a s : Z) :
  "ticket-" ++ PyStr.str_of_int a ++ "-" ++ PyStr.str_of_int s <> "".
Proof. simpl. discriminate. Qed.

(* ================================================================== *)
(** ** What a handler can do to the database *)

(** Symbolic execution of a handler: unfold the monad and split on
    every answer of the outside world and of the database. *)
Ltac unfold_monad :=
  unfold run, send_message, staff_check, bind, ret, raise, query, execute,
    perform, try_except, try_except_Forbidden, ChatCompletion_create in *.

Ltac split_on_answers :=
  repeat match goal with
         | |- context [match ?x with _ => _ end] =>
             lazymatch x with
             | context [match _ with _ => _ end] => fail
             | _ => destruct x eqn:?
             end
         end.

Ltac run_handler := unfold_monad; simpl; split_on_answers; simpl in *.

Lemma perform_db (env : Env) (a : Action) (w : World) :
  db (run (perform env a) w) = db w.
Proof. run_handler; reflexivity. Qed.

Lemma world_eta (w : World) : mkWorld (db w) (outbox w) = w.
Proof. destruct w. reflexivity. Qed.

(** [process_commands] returns, leaves the database alone and adds
    [prefix_command_calls] to the outbox. *)
Lemma process_commands_run (env : Env) (m : Message) (w : World) :
  process_commands env m w
  = (Ok tt, mkWorld (db w) (outbox w ++ prefix_command_calls env m)).
Proof.
  unfold process_commands, prefix_command_calls.
  destruct (is_bot (msg_author m));
    [rewrite app_nil_r, world_eta; reflexivity|].
  destruct (PyStr.startswith (msg_content m) "!");
    [|rewrite app_nil_r, world_eta; reflexivity].
  destruct (invoke_prefix_command env m) as [sent [[| |]|]];
    unfold bind, try_except, on_command_error, perform, ret; simpl;
    try (rewrite app_nil_r; reflexivity).
  destruct (deliver env _); simpl;
    [rewrite app_nil_r | rewrite app_assoc]; reflexivity.
Qed.

Lemma prefix_command_calls_none (env : Env) (m : Message) :
  PyStr.startswith (msg_content m) "!" = false ->
  prefix_command_calls env m = [].
Proof.
  intros H. unfold prefix_command_calls. rewrite H.
  destruct (is_bot (msg_author m)); reflexivity.
Qed.

(** [on_message] for a message that is not from a bot: the handler of
    its channel, then the prefix commands if the handler returned. *)
Lemma on_message_dm config env m c w :
  is_bot (msg_author m) = false ->
  msg_channel m = DMChannel c ->
  on_message config env m w
  = match handle_dm_message config env m w with
    | (Ok _, w') =>
        (Ok tt, mkWorld (db w') (outbox w' ++ prefix_command_calls env m))
    | (Raise e, w') => (Raise e, w')
    end.
Proof.
  intros Hb Hc. unfold on_message. rewrite Hb, Hc. unfold bind.
  destruct (handle_dm_message config env m w) as [[[]|e] w'];
    [apply process_commands_run | reflexivity].
Qed.

Lemma on_message_support config env m chan cname w :
  is_bot (msg_author m) = false ->
  msg_channel m = TextChannel (SUPPORT_GUILD_ID config) chan cname ->
  on_message config env m w
  = match handle_support_message env m w with
    | (Ok _, w') =>
        (Ok tt, mkWorld (db w') (outbox w' ++ prefix_command_calls env m))
    | (Raise e, w') => (Raise e, w')
    end.
Proof.
  intros Hb Hc. unfold on_message. rewrite Hb, Hc, Z.eqb_refl. unfold bind.
  destruct (handle_support_message env m w) as [[[]|e] w'];
    [apply process_commands_run | reflexivity].
Qed.

Lemma get_ai_response_returns (config : Config) (env : Env) (q : string)
    (w : World) :
  exists s, get_ai_response config env q w = (Ok s, w).
Proof.
  unfold get_ai_response. run_handler; eauto.
Qed.

Lemma handle_ticket_creation_db_step config env i w :
  db_step (db w) (db (run (handle_ticket_creation config env i) w)).
Proof.
  unfold handle_ticket_creation, generate_ticket_id.
  run_handler; try apply db_step_none; apply db_step_create; assumption.
Qed.

Lemma handle_dm_message_db_step config env m w :
  db_step (db w) (db (run (handle_dm_message config env m) w)).
Proof.
  unfold handle_dm_message, get_ai_response.
  run_handler; try apply db_step_none; apply db_step_message.
Qed.

Lemma handle_support_message_db_step env m w :
  db_step (db w) (db (run (handle_support_message env m) w)).
Proof.
  unfold handle_support_message.
  run_handler; try apply db_step_none; apply db_step_message.
Qed.

Lemma on_message_db_step config env m w :
  db_step (db w) (db (run (on_message config env m) w)).
Proof.
  unfold on_message.
  destruct (is_bot (msg_author m)); [apply db_step_none|].
  destruct (msg_channel m) as [c|g c n].
  - pose proof (handle_dm_message_db_step config env m w) as H.
    unfold run, bind in *.
    destruct (handle_dm_message config env m w) as [[[]|e] w'];
      [rewrite process_commands_run|]; exact H.
  - destruct (Z.eqb g (SUPPORT_GUILD_ID config)).
    + pose proof (handle_support_message_db_step env m w) as H.
      unfold run, bind in *.
      destruct (handle_support_message env m w) as [[[]|e] w'];
        [rewrite process_commands_run|]; exact H.
    + unfold run, bind, ret. rewrite process_commands_run.
      apply db_step_none.
Qed.

Lemma close_ticket_button_db_step config env tid i w :
  db_step (db w) (db (run (close_ticket_button config env tid i) w)).
Proof.
  unfold close_ticket_button.
  run_handler; try apply db_step_none; apply db_step_close.
Qed.

Lemma close_ticket_command_db_step config env i tid w :
  db_step (db w) (db (run (close_ticket_command config env i tid) w)).
Proof.
  unfold close_ticket_command.
  run_handler; try apply db_step_none; apply db_step_close.
Qed.

Lemma ticket_info_db_step config env i tid w :
  db_step (db w) (db (run (ticket_info config env i tid) w)).
Proof.
  unfold ticket_info. run_handler; apply db_step_none.
Qed.

Lemma setup_tickets_db_step env i c w :
  db_step (db w) (db (run (setup_tickets env i c) w)).
Proof.
  unfold setup_tickets. run_handler; apply db_step_none.
Qed.

Lemma dispatch_db_step config env ev w :
  db_step (db w) (db (run (dispatch config env ev) w)).
Proof.
  destruct ev; simpl;
    auto using handle_ticket_creation_db_step, close_ticket_button_db_step,
      on_message_db_step, setup_tickets_db_step,
      close_ticket_command_db_step, ticket_info_db_step.
Qed.

(* ================================================================== *)
(** ** Invariants of the store *)

Lemma close_row_ticket_id now tid t :
  ticket_id (Database.close_row now tid t) = ticket_id t.
Proof. unfold Database.close_row. destruct (String.eqb _ _); reflexivity. Qed.

Lemma close_row_user_id now tid t :
  user_id (Database.close_row now tid t) = user_id t.
Proof. unfold Database.close_row. destruct (String.eqb _ _); reflexivity. Qed.

Lemma close_row_open now tid t :
  Status_eqb (status (Database.close_row now tid t)) status_open = true ->
  Database.close_row now tid t = t.
Proof.
  unfold Database.close_row.
  destruct (String.eqb _ _); simpl; [discriminate | reflexivity].
Qed.

(** Closing never adds an open ticket. *)
Lemma open_tickets_after_close now tid u (l : list Ticket) :
  (length
     (filter (fun t => Z.eqb (user_id t) u && Status_eqb (status t) status_open)
        (map (Database.close_row now tid) l))
   <= length
        (filter (fun t => Z.eqb (user_id t) u && Status_eqb (status t) status_open)
           l))%nat.
Proof.
  induction l as [|t l IH]; simpl; [lia|].
  rewrite close_row_user_id.
  destruct (Z.eqb (user_id t) u); simpl.
  - destruct (Status_eqb (status (Database.close_row now tid t)) status_open)
      eqn:E.
    + rewrite (close_row_open _ _ _ E) in E. rewrite E. simpl. lia.
    + destruct (Status_eqb (status t) status_open); simpl; lia.
  - exact IH.
Qed.

Lemma find_none_filter_nil {A} (p : A -> bool) (l : list A) :
  find p l = None -> filter p l = [].
Proof.
  induction l as [|a l IH]; simpl; [reflexivity|].
  destruct (p a); [discriminate | exact IH].
Qed.

Lemma one_open_per_user_step d d' :
  db_step d d' -> one_open_per_user d -> one_open_per_user d'.
Proof.
  intros [ | now tid | now tid aid aname content
           | now at_ u uname chan cat Hnone ] Inv; try exact Inv.
  - intros v. unfold open_tickets_of. simpl.
    eapply Nat.le_trans; [apply open_tickets_after_close | apply Inv].
  - unfold Database.create_ticket.
    destruct (Database.get_ticket d _); simpl; [exact Inv|].
    intros v. unfold open_tickets_of. simpl.
    rewrite filter_app, length_app. simpl.
    destruct (Z.eqb_spec u v) as [->|Hne]; simpl.
    + unfold Database.get_user_open_ticket in Hnone.
      rewrite (find_none_filter_nil _ _ Hnone). simpl. lia.
    + specialize (Inv v). unfold open_tickets_of in Inv. simpl. lia.
Qed.

Lemma generated_ids_step d d' :
  db_step d d' -> generated_ids d -> generated_ids d'.
Proof.
  unfold generated_ids.
  intros [ | now tid | now tid aid aname content
           | now at_ u uname chan cat Hnone ] Inv; try exact Inv.
  - simpl. apply Forall_map. eapply Forall_impl; [|exact Inv].
    intros t [n Hn]. exists n.
    rewrite close_row_ticket_id, close_row_user_id. exact Hn.
  - unfold Database.create_ticket.
    destruct (Database.get_ticket d _); simpl; [exact Inv|].
    apply Forall_app. split; [exact Inv|].
    constructor; [|constructor]. exists at_. reflexivity.
Qed.

Lemma reachable_invariants (w : World) :
  reachable w -> one_open_per_user (db w) /\ generated_ids (db w).
Proof.
  induction 1 as [|config env ev w Hr [IH1 IH2]].
  - split; [intros u; simpl; lia | constructor].
  - pose proof (dispatch_db_step config env ev w) as Hs.
    split; [eapply one_open_per_user_step | eapply generated_ids_step]; eauto.
Qed.

(* ================================================================== *)
(** ** The staff check *)

Lemma has_staff_role_member config u :
  has_staff_role config u = true ->
  exists rs, roles u = Some rs
             /\ existsb (Z.eqb (STAFF_ROLE_ID config)) rs = true.
Proof.
  unfold has_staff_role. destruct (roles u) as [rs|]; [eauto | discriminate].
Qed.

(** For a member who holds the staff role the check passes. *)
Lemma staff_gate_open {A} config u (k : bool -> M A) w :
  has_staff_role config u = true ->
  bind (staff_check config u) k w = k true w.
Proof.
  intros H. destruct (has_staff_role_member _ _ H) as (rs & Hr & He).
  unfold bind, staff_check, ret. rewrite Hr, He. reflexivity.
Qed.

(** For a member who does not hold it the check answers [False]. *)
Lemma staff_gate_closed {A} config u rs (k : bool -> M A) w :
  roles u = Some rs -> has_staff_role config u = false ->
  bind (staff_check config u) k w = k false w.
Proof.
  unfold has_staff_role, bind, staff_check, ret. intros Hr He.
  rewrite Hr in *. rewrite He. reflexivity.
Qed.

(** For an invoker without the attribute the check raises. *)
Lemma staff_gate_raises {A} config u (k : bool -> M A) w :
  roles u = None ->
  bind (staff_check config u) k w = (Raise OtherException, w).
Proof.
  unfold bind, staff_check, raise. intros Hr. rewrite Hr. reflexivity.
Qed.

Ltac pass_staff_gate Hs :=
  try unfold run; rewrite (staff_gate_open _ _ _ _ Hs); cbn [negb].

(* ================================================================== *)
(** ** Closing a ticket *)

(** [Database.close_ticket] stamps every row with the given id, open or
    not: the store neither refuses nor skips a closed ticket. *)
Lemma close_ticket_restamps now d tid t :
  In t (tickets d) -> ticket_id t = tid ->
  exists t', In t' (tickets (Database.close_ticket now d tid))
             /\ ticket_id t' = tid
             /\ status t' = status_closed
             /\ closed_at t' = Some now.
Proof.
  intros Hin Hid. exists (Database.close_row now tid t). split.
  - simpl. apply in_map. exact Hin.
  - unfold Database.close_row. rewrite Hid, String.eqb_refl. simpl. auto.
Qed.

(** The [close] command checks the status first: on a closed ticket it
    answers that the ticket is already closed and writes nothing. *)
Lemma close_ticket_command_already_closed config env i tid t w :
  has_staff_role config (interaction_user i) = true ->
  Database.get_ticket (db w) tid = Some t ->
  status t = status_closed ->
  close_ticket_command config env i tid w =
  send_message env "❌ Ticket is already closed." w.
Proof.
  intros Hs Ht Hc. unfold close_ticket_command.
  pass_staff_gate Hs. unfold bind, query. rewrite Ht, Hc. reflexivity.
Qed.

(** The close button has no such check: for a staff member it runs the
    update whatever the status of the ticket. *)
Lemma close_ticket_button_always_updates config env i tid w :
  has_staff_role config (interaction_user i) = true ->
  db (run (close_ticket_button config env tid i) w) =
  Database.close_ticket (sql_now env) (db w) tid.
Proof.
  intros Hs. unfold close_ticket_button. pass_staff_gate Hs.
  run_handler; reflexivity.
Qed.

(** C1. A close attempt on a ticket that is already CLOSED is to yield
    the already-closed answer and leave [closed_at] as it was.  The
    [close] command does so; the close button does not.  Here Alice's
    ticket is closed by command at 10:00 and the button under its
    announcement is pressed at 11:00: the button edits the announcement
    instead of reporting that the ticket is closed, and [closed_at] is
    overwritten with 11:00. *)
Theorem close_button_overwrites_closed_at :
  map (fun t => (ticket_id t, status t, closed_at t))
      (tickets (db Scenario.closed_by_command))
  = [("ticket-42-1000", status_closed, Some "2024-01-01 10:00:00")]
  /\ map (fun t => (ticket_id t, status t, closed_at t))
         (tickets (db Scenario.button_after_command))
     = [("ticket-42-1000", status_closed, Some "2024-01-01 11:00:00")]
  /\ outbox Scenario.button_after_command
     = (outbox Scenario.closed_by_command
        ++ [ResponseEditMessage
              (ticket_closed_embed Scenario.env_close2 "ticket-42-1000"
                 Scenario.sam);
            UserSend 42 (ticket_closed_dm_embed "ticket-42-1000")])%list.
Proof. repeat split; vm_compute; reflexivity. Qed.

(* ================================================================== *)
(** ** The staff gate *)

(** A member without the staff role gets the permission answer from
    the close button, the [close] command and the [ticket_info]
    command, and nothing else happens: the database is as before, and
    once the platform accepts the answer it is the one call made. *)
Lemma member_without_staff_role_is_refused config env tid i rs w :
  roles (interaction_user i) = Some rs ->
  has_staff_role config (interaction_user i) = false ->
  let deny_close :=
    ResponseSendMessage (Some "❌ Only staff members can close tickets.")
      None true in
  let deny_info :=
    ResponseSendMessage
      (Some "❌ Only staff members can view ticket information.") None true in
  (db (run (close_ticket_button config env tid i) w) = db w
   /\ db (run (close_ticket_command config env i tid) w) = db w
   /\ db (run (ticket_info config env i tid) w) = db w)
  /\ (deliver env deny_close = None ->
      close_ticket_button config env tid i w
      = (Ok tt, mkWorld (db w) (outbox w ++ [deny_close]))
      /\ close_ticket_command config env i tid w
         = (Ok tt, mkWorld (db w) (outbox w ++ [deny_close])))
  /\ (deliver env deny_info = None ->
      ticket_info config env i tid w
      = (Ok tt, mkWorld (db w) (outbox w ++ [deny_info]))).
Proof.
  intros Hr Hs deny_close deny_info. subst deny_close deny_info.
  unfold close_ticket_button, close_ticket_command, ticket_info, run.
  rewrite !(staff_gate_closed _ _ rs _ _ Hr Hs). cbn [negb].
  split; [repeat split; apply perform_db|].
  unfold send_message, perform.
  split; [intros Hd; rewrite Hd; split; reflexivity|].
  intros Hd. rewrite Hd. reflexivity.
Qed.

(** Whenever one of the three staff-only handlers writes to the
    database, the invoker holds the staff role. *)
Lemma writes_need_staff_role config env tid i w :
  db (run (close_ticket_button config env tid i) w) <> db w
  \/ db (run (close_ticket_command config env i tid) w) <> db w
  \/ db (run (ticket_info config env i tid) w) <> db w ->
  has_staff_role config (interaction_user i) = true.
Proof.
  intros H.
  destruct (has_staff_role config (interaction_user i)) eqn:Hs;
    [reflexivity | exfalso].
  unfold close_ticket_button, close_ticket_command, ticket_info, run in H.
  destruct (roles (interaction_user i)) as [rs|] eqn:Hr.
  - rewrite !(staff_gate_closed _ _ rs _ _ Hr Hs) in H. cbn [negb] in H.
    unfold send_message in H.
    repeat match type of H with
           | context [snd (perform ?e ?a ?w)] =>
               change (snd (perform e a w)) with (run (perform e a) w) in H
           end.
    rewrite !perform_db in H. tauto.
  - rewrite !(staff_gate_raises _ _ _ _ Hr) in H. simpl in H. tauto.
Qed.

(** C6. The permission answer is for invokers without the staff role,
    and a member without it does get that answer.  But [close] and
    [ticket_info] are global commands, usable in the bot's direct
    channel, where the invoker is a plain user without the attribute
    [roles]: there the check itself raises, before any answer.  For
    every invoker without roles the three handlers raise, write
    nothing and report nothing: no permission error reaches the
    invoker. *)
Theorem staff_check_raises_without_roles config env tid i w :
  roles (interaction_user i) = None ->
  has_staff_role config (interaction_user i) = false
  /\ close_ticket_command config env i tid w = (Raise OtherException, w)
  /\ ticket_info config env i tid w = (Raise OtherException, w)
  /\ close_ticket_button config env tid i w = (Raise OtherException, w).
Proof.
  intros Hr. split; [unfold has_staff_role; rewrite Hr; reflexivity|].
  unfold close_ticket_command, ticket_info, close_ticket_button.
  rewrite !(staff_gate_raises _ _ _ _ Hr). auto.
Qed.

Lemma staff_check_raises_without_roles_witness :
  roles Scenario.alice_in_dm = None
  /\ close_ticket_command Scenario.config Scenario.env_close1
       (mkInteraction Scenario.alice_in_dm (DMChannel 4200))
       "ticket-42-1000" Scenario.alice_has_ticket
     = (Raise OtherException, Scenario.alice_has_ticket)
  /\ ticket_info Scenario.config Scenario.env_close1
       (mkInteraction Scenario.alice_in_dm (DMChannel 4200))
       "ticket-42-1000" Scenario.alice_has_ticket
     = (Raise OtherException, Scenario.alice_has_ticket).
Proof.
  destruct (staff_check_raises_without_roles Scenario.config
              Scenario.env_close1 "ticket-42-1000"
              (mkInteraction Scenario.alice_in_dm (DMChannel 4200))
              Scenario.alice_has_ticket eq_refl)
    as (_ & Hc & Hi & _).
  split; [reflexivity|]. split; [exact Hc | exact Hi].
Defined.

(* ================================================================== *)
(** ** The AI-assist adapter *)

(** C7. [get_ai_response] returns a string for every question and never
    raises, and it touches neither the database nor the outbox: without
    a configured key the fixed "not configured" message, on any error
    of the provider the fixed fallback message, and otherwise the
    stripped completion. *)
Theorem get_ai_response_never_raises config env question w :
  exists answer,
    get_ai_response config env question w = (Ok answer, w)
    /\ (PyStr.truthy (OPENAI_API_KEY config) = false ->
        answer = "AI assistance is not configured. Please contact a staff member for help.")
    /\ (PyStr.truthy (OPENAI_API_KEY config) = true ->
        forall e, chat_completion env question = Raise e ->
        answer = "I'm having trouble accessing AI assistance right now. Please contact a staff member for help.")
    /\ (PyStr.truthy (OPENAI_API_KEY config) = true ->
        forall text, chat_completion env question = Ok text ->
        answer = PyStr.strip text).
Proof.
  unfold get_ai_response.
  destruct (PyStr.truthy (OPENAI_API_KEY config)); simpl.
  - unfold try_except, bind, ret, ChatCompletion_create.
    destruct (chat_completion env question) as [text|e];
      eexists; (split; [reflexivity|]);
      repeat split; intros; congruence.
  - eexists. split; [reflexivity|].
    repeat split; intros; congruence.
Qed.

Lemma get_ai_response_never_raises_witness :
  get_ai_response Scenario.config Scenario.env_open
    "how do I reset my password?" init_world
  = (Ok "AI assistance is not configured. Please contact a staff member for help.",
     init_world).
Proof.
  destruct (get_ai_response_never_raises Scenario.config Scenario.env_open
              "how do I reset my password?" init_world)
    as (answer & Hrun & Hnone & _).
  rewrite Hrun, (Hnone eq_refl). reflexivity.
Defined.

(* ================================================================== *)
(** ** The AI trigger of the direct-message router *)

Lemma lower_char_a (c : ascii) :
  PyStr.lower_char c = "a"%char <-> c = "a"%char \/ c = "A"%char.
Proof.
  destruct c as [[] [] [] [] [] [] [] []]; vm_compute;
    split; intros H; try discriminate H; auto;
    destruct H as [H|H]; discriminate H.
Qed.

Lemma lower_char_i (c : ascii) :
  PyStr.lower_char c = "i"%char <-> c = "i"%char \/ c = "I"%char.
Proof.
  destruct c as [[] [] [] [] [] [] [] []]; vm_compute;
    split; intros H; try discriminate H; auto;
    destruct H as [H|H]; discriminate H.
Qed.

Lemma lower_char_colon (c : ascii) :
  PyStr.lower_char c = ":"%char <-> c = ":"%char.
Proof.
  destruct c as [[] [] [] [] [] [] [] []]; vm_compute;
    split; intros H; try discriminate H; auto.
Qed.

(** *** What [strip] returns *)

Lemma append_nil_r (s : string) : s ++ "" = s.
Proof. induction s as [|c s IH]; simpl; [|rewrite IH]; reflexivity. Qed.

Lemma append_assoc (a b c : string) : (a ++ b) ++ c = a ++ b ++ c.
Proof. induction a as [|x a IH]; simpl; [|rewrite IH]; reflexivity. Qed.

Lemma reverse_app (a b : string) :
  PyStr.reverse (a ++ b) = PyStr.reverse b ++ PyStr.reverse a.
Proof.
  induction a as [|x a IH]; simpl.
  - rewrite append_nil_r. reflexivity.
  - rewrite IH, append_assoc. reflexivity.
Qed.

Lemma reverse_involutive (s : string) : PyStr.reverse (PyStr.reverse s) = s.
Proof.
  induction s as [|c s IH]; simpl; [reflexivity|].
  rewrite reverse_app, IH. reflexivity.
Qed.

Lemma spaces_of_app tok (a b : string) :
  spaces_of tok a -> spaces_of tok b -> spaces_of tok (a ++ b).
Proof.
  induction 1 as [|t s Ht _ IH]; intros Hb; simpl; [exact Hb|].
  rewrite append_assoc. constructor; auto.
Qed.

Lemma spaces_of_one tok (t : string) : tok t = true -> spaces_of tok t.
Proof.
  intros H. rewrite <- (append_nil_r t). constructor; [exact H | constructor].
Qed.

(** [strip_left] takes whitespace characters off the front and stops
    at the first position where none begins. *)
Lemma strip_left_spec w1 w2 w3 (n : nat) :
  forall s, (String.length s <= n)%nat ->
    (exists l, s = l ++ PyStr.strip_left w1 w2 w3 s
               /\ spaces_of (space_token w1 w2 w3) l)
    /\ ~ begins_with (space_token w1 w2 w3) (PyStr.strip_left w1 w2 w3 s).
Proof.
  induction n as [|n IH]; intros s Hlen.
  - destruct s; [|simpl in Hlen; lia]. simpl. split.
    + exists "". split; [reflexivity | constructor].
    + intros (t & r & Ht & E). destruct t; simpl in *; discriminate.
  - destruct s as [|a r]; simpl.
    { split; [exists ""; split; [reflexivity | constructor]|].
      intros (t & r & Ht & E). destruct t; simpl in *; discriminate. }
    simpl in Hlen.
    destruct (w1 a) eqn:E1.
    { destruct (IH r ltac:(lia)) as [(l & Hl & Hs) Hb]. split; [|exact Hb].
      exists (String a "" ++ l). split.
      - simpl. f_equal. exact Hl.
      - constructor; [simpl; exact E1 | exact Hs]. }
    destruct r as [|b r2].
    { split; [exists ""; split; [reflexivity | constructor]|].
      intros (t & r & Ht & E).
      destruct t as [|x [|y t]]; simpl in *; try discriminate.
      all: try (destruct t as [|z [|? ?]]; discriminate).
      injection E as -> _. congruence. }
    simpl in Hlen.
    destruct (w2 a b) eqn:E2.
    { destruct (IH r2 ltac:(lia)) as [(l & Hl & Hs) Hb]. split; [|exact Hb].
      exists (String a (String b "") ++ l). split.
      - simpl. do 2 f_equal. exact Hl.
      - constructor; [simpl; exact E2 | exact Hs]. }
    destruct r2 as [|c r3].
    { split; [exists ""; split; [reflexivity | constructor]|].
      intros (t & r & Ht & E).
      destruct t as [|x [|y [|z [|? ?]]]]; simpl in *; try discriminate.
      - injection E as -> _. congruence.
      - injection E as -> -> _. congruence. }
    simpl in Hlen.
    destruct (w3 a b c) eqn:E3.
    { destruct (IH r3 ltac:(lia)) as [(l & Hl & Hs) Hb]. split; [|exact Hb].
      exists (String a (String b (String c "")) ++ l). split.
      - simpl. do 3 f_equal. exact Hl.
      - constructor; [simpl; exact E3 | exact Hs]. }
    split; [exists ""; split; [reflexivity | constructor]|].
    intros (t & r & Ht & E).
    destruct t as [|x [|y [|z [|? ?]]]]; simpl in *; try discriminate.
    + injection E as -> _. congruence.
    + injection E as -> -> _. congruence.
    + injection E as -> -> -> _. congruence.
Qed.

Lemma length_app (a b : string) :
  String.length (a ++ b) = (String.length a + String.length b)%nat.
Proof. induction a as [|x a IH]; simpl; [|rewrite IH]; reflexivity. Qed.

Lemma length_reverse (s : string) :
  String.length (PyStr.reverse s) = String.length s.
Proof.
  induction s as [|c s IH]; simpl; [reflexivity|].
  rewrite length_app, IH. simpl. lia.
Qed.

Lemma space_token_length w1 w2 w3 (t : string) :
  space_token w1 w2 w3 t = true -> (String.length t <= 3)%nat.
Proof.
  destruct t as [|x [|y [|z [|u t]]]]; simpl; intros H;
    try lia; discriminate H.
Qed.

Lemma reversed_token (t : string) :
  space_token PyStr.isspace (fun b a => PyStr.isspace2 a b)
    (fun c b a => PyStr.isspace3 a b c) t
  = is_space_char (PyStr.reverse t).
Proof.
  destruct t as [|x [|y [|z [|u t]]]]; try reflexivity.
  change (false
          = is_space_char
              (PyStr.reverse (String x (String y (String z (String u t)))))).
  destruct (is_space_char _) eqn:E; [|reflexivity].
  apply space_token_length in E. rewrite length_reverse in E.
  simpl in E. lia.
Qed.

Lemma whitespace_reverse (l : string) :
  spaces_of
    (space_token PyStr.isspace (fun b a => PyStr.isspace2 a b)
       (fun c b a => PyStr.isspace3 a b c)) l ->
  whitespace (PyStr.reverse l).
Proof.
  induction 1 as [|t s Ht _ IH]; [constructor|].
  rewrite reverse_app. apply spaces_of_app; [exact IH|].
  apply spaces_of_one. rewrite <- reversed_token. exact Ht.
Qed.

Lemma lstrip_spec (s : string) :
  (exists l, s = l ++ PyStr.lstrip s /\ whitespace l)
  /\ ~ begins_with is_space_char (PyStr.lstrip s).
Proof.
  exact (strip_left_spec PyStr.isspace PyStr.isspace2 PyStr.isspace3
           (String.length s) s (Nat.le_refl _)).
Qed.

Lemma rstrip_spec (s : string) :
  (exists r, s = PyStr.rstrip s ++ r /\ whitespace r)
  /\ ~ ends_with is_space_char (PyStr.rstrip s).
Proof.
  unfold PyStr.rstrip.
  destruct (strip_left_spec PyStr.isspace (fun b a => PyStr.isspace2 a b)
              (fun c b a => PyStr.isspace3 a b c)
              (String.length (PyStr.reverse s)) (PyStr.reverse s)
              (Nat.le_refl _)) as [(l & Hl & Hs) Hb].
  split.
  - exists (PyStr.reverse l). split; [|apply whitespace_reverse; exact Hs].
    rewrite <- reverse_app, <- Hl, reverse_involutive. reflexivity.
  - intros (t & r & Ht & E). apply Hb.
    exists (PyStr.reverse t), (PyStr.reverse r). split.
    + rewrite reversed_token, reverse_involutive. exact Ht.
    + rewrite <- reverse_app, <- E, reverse_involutive. reflexivity.
Qed.

(** [strip] returns the text between the leading and the trailing
    whitespace, Unicode whitespace included. *)
Lemma strip_spec (s : string) : stripped_of s (PyStr.strip s).
Proof.
  unfold PyStr.strip, stripped_of.
  destruct (lstrip_spec s) as [(l & Hl & Hwl) Hb].
  destruct (rstrip_spec (PyStr.lstrip s)) as [(r & Hr & Hwr) He].
  split; [|split; [|exact He]].
  - exists l, r. split; [|auto]. rewrite <- Hr. exact Hl.
  - intros (t & x & Ht & E). apply Hb. exists t, (x ++ r). split; [exact Ht|].
    rewrite Hr at 1. rewrite E, append_assoc. reflexivity.
Qed.

Lemma prefix_cons (a b : ascii) (s1 s2 : string) :
  String.prefix (String a s1) (String b s2)
  = (Ascii.eqb a b && String.prefix s1 s2)%bool.
Proof.
  cbn [String.prefix]. destruct (ascii_dec a b) as [->|n].
  - rewrite Ascii.eqb_refl. reflexivity.
  - apply Ascii.eqb_neq in n. rewrite n. reflexivity.
Qed.

(** The test [content.lower().startswith('ai:')] reads the first three
    characters of [content] without regard to case. *)
Lemma ai_prefix_spec (s : string) :
  PyStr.startswith (PyStr.lower s) "ai:" = true <->
  exists a i rest,
    s = String a (String i (String ":" rest))
    /\ (a = "a"%char \/ a = "A"%char)
    /\ (i = "i"%char \/ i = "I"%char).
Proof.
  unfold PyStr.startswith. split.
  - destruct s as [|a [|i [|c rest]]]; cbn [PyStr.lower];
      rewrite ?prefix_cons; intros H;
      try (cbn [String.prefix] in H; rewrite ?andb_false_r in H;
           discriminate H).
    apply andb_prop in H. destruct H as [Ha H].
    apply andb_prop in H. destruct H as [Hi H].
    apply andb_prop in H. destruct H as [Hc _].
    apply Ascii.eqb_eq in Ha, Hi, Hc. symmetry in Ha, Hi, Hc.
    apply (proj1 (lower_char_a a)) in Ha.
    apply (proj1 (lower_char_i i)) in Hi.
    apply (proj1 (lower_char_colon c)) in Hc. subst c.
    exists a, i, rest. auto.
  - intros (a & i & rest & -> & Ha & Hi).
    apply (proj2 (lower_char_a a)) in Ha.
    apply (proj2 (lower_char_i i)) in Hi.
    cbn [PyStr.lower]. rewrite !prefix_cons, Ha, Hi.
    destruct (PyStr.lower rest); reflexivity.
Qed.

(** C8. A direct message that begins with the AI trigger, from a user
    without an open ticket, changes neither table of the store:
    whatever the provider and the platform answer, the database after
    [handle_dm_message] (and after [on_message], which routes to it) is
    the database before. *)
Theorem ai_path_leaves_store_unchanged config env m c w :
  msg_channel m = DMChannel c ->
  Database.get_user_open_ticket (db w) (uid (msg_author m)) = None ->
  PyStr.startswith (PyStr.lower (msg_content m)) "ai:" = true ->
  db (run (handle_dm_message config env m) w) = db w
  /\ db (run (on_message config env m) w) = db w.
Proof.
  intros Hc Hn Hp.
  assert (Hdm : db (run (handle_dm_message config env m) w) = db w).
  { unfold handle_dm_message, run, bind at 1, query. rewrite Hn, Hp.
    unfold bind.
    destruct (get_ai_response_returns config env
                (PyStr.strip (PyStr.slice_from 3 (msg_content m))) w)
      as [ans ->].
    apply perform_db. }
  split; [exact Hdm|].
  destruct (is_bot (msg_author m)) eqn:Hb;
    [unfold on_message; rewrite Hb; reflexivity|].
  unfold run in *. rewrite (on_message_dm _ _ _ _ _ Hb Hc).
  destruct (handle_dm_message config env m w) as [[[]|e] w']; exact Hdm.
Qed.

Lemma ai_path_leaves_store_unchanged_witness :
  db (run (on_message Scenario.config Scenario.env_open
             (Scenario.alice_dm "ai: how do I reset my password?"))
          init_world)
  = db init_world.
Proof.
  apply (ai_path_leaves_store_unchanged Scenario.config Scenario.env_open
           (Scenario.alice_dm "ai: how do I reset my password?") 4200
           init_world);
    reflexivity.
Defined.

(** C10. For a direct message from a user without an open ticket, the
    AI path is taken exactly when the lowercased content starts with
    [ai:], that is when the content starts with [a] or [A], then [i] or
    [I], then a colon.  The question given to the adapter is what
    follows these three characters with the whitespace around it
    removed (Unicode whitespace included): it neither begins nor ends
    with a whitespace character, and the rest of the content is that
    question between two runs of whitespace.  The reply carries the
    adapter's answer to that question.  Any other content gets the
    suggestion to open a ticket. *)
Theorem ai_trigger_is_case_insensitive config env m w :
  Database.get_user_open_ticket (db w) (uid (msg_author m)) = None ->
  (PyStr.startswith (PyStr.lower (msg_content m)) "ai:" = true <->
   exists a i rest,
     msg_content m = String a (String i (String ":" rest))
     /\ (a = "a"%char \/ a = "A"%char)
     /\ (i = "i"%char \/ i = "I"%char))
  /\ (PyStr.startswith (PyStr.lower (msg_content m)) "ai:" = true ->
      exists a i rest answer,
        msg_content m = String a (String i (String ":" rest))
        /\ PyStr.strip (PyStr.slice_from 3 (msg_content m)) = PyStr.strip rest
        /\ stripped_of rest (PyStr.strip rest)
        /\ get_ai_response config env (PyStr.strip rest) w = (Ok answer, w)
        /\ handle_dm_message config env m w
           = perform env
               (ChannelSend (channel_id_of (msg_channel m)) None
                  (Some (ai_embed answer)) None) w)
  /\ (PyStr.startswith (PyStr.lower (msg_content m)) "ai:" = false ->
      handle_dm_message config env m w
      = perform env
          (ChannelSend (channel_id_of (msg_channel m)) None
             (Some suggest_ticket_embed) (Some TicketView)) w).
Proof.
  intros Hn. split; [apply ai_prefix_spec|]. split; intros Hp.
  - destruct (proj1 (ai_prefix_spec _) Hp) as (a & i & rest & Hc & _).
    destruct (get_ai_response_returns config env (PyStr.strip rest) w)
      as [ans Hans].
    exists a, i, rest, ans.
    assert (Hq : PyStr.strip (PyStr.slice_from 3 (msg_content m))
                 = PyStr.strip rest) by (rewrite Hc; reflexivity).
    split; [exact Hc|]. split; [exact Hq|].
    split; [apply strip_spec|]. split; [exact Hans|].
    unfold handle_dm_message, bind at 1, query. rewrite Hn, Hp, Hq.
    unfold bind. rewrite Hans. reflexivity.
  - unfold handle_dm_message, bind, query. rewrite Hn, Hp. reflexivity.
Qed.

Lemma ai_trigger_is_case_insensitive_witness :
  PyStr.startswith
    (PyStr.lower
       ("AI:" ++ Scenario.nbsp ++ " reset my password " ++ Scenario.em_space))
    "ai:" = true
  /\ PyStr.strip
       (PyStr.slice_from 3
          ("AI:" ++ Scenario.nbsp ++ " reset my password "
             ++ Scenario.em_space))
     = "reset my password"
  /\ handle_dm_message Scenario.config Scenario.env_open
       (Scenario.alice_dm
          ("AI:" ++ Scenario.nbsp ++ " reset my password "
             ++ Scenario.em_space))
       init_world
     = perform Scenario.env_open
         (ChannelSend 4200 None
            (Some (ai_embed
                     "AI assistance is not configured. Please contact a staff member for help."))
            None)
         init_world.
Proof.
  destruct (ai_trigger_is_case_insensitive Scenario.config Scenario.env_open
              (Scenario.alice_dm
                 ("AI:" ++ Scenario.nbsp ++ " reset my password "
                    ++ Scenario.em_space))
              init_world)
    as (_ & Hai & _).
  - reflexivity.
  - split; [reflexivity|]. split; [reflexivity|].
    destruct (Hai eq_refl) as (a & i & rest & answer & _ & _ & _ & Hans & Hrun).
    rewrite Hrun. vm_compute in Hans. injection Hans as <-. reflexivity.
Defined.

(* ================================================================== *)
(** ** Opening a ticket *)

(** With an open ticket in the store, the creation handler is the
    answer naming that ticket and nothing else. *)
Lemma handle_ticket_creation_existing config env i t w :
  Database.get_user_open_ticket (db w) (uid (interaction_user i)) = Some t ->
  handle_ticket_creation config env i w
  = send_message env ("You already have an open ticket: " ++ ticket_id t) w.
Proof.
  intros H. unfold handle_ticket_creation, bind, query. rewrite H.
  reflexivity.
Qed.

(** Once the staff channel exists the insertion is made, whatever
    becomes of the welcome messages that follow. *)
Lemma handle_ticket_creation_inserts config env i cat chan w :
  Database.get_user_open_ticket (db w) (uid (interaction_user i)) = None ->
  staff_channel_created config env
    ("ticket-" ++ uname (interaction_user i)) cat chan ->
  db (run (handle_ticket_creation config env i) w)
  = snd (Database.create_ticket (sql_now env) (db w)
           (generate_ticket_id env (uid (interaction_user i)))
           (uid (interaction_user i)) (user_str (interaction_user i))
           chan "general").
Proof.
  intros Hn [g Hg Hcat Hrole Hcreate].
  unfold handle_ticket_creation. unfold_monad. simpl.
  rewrite Hn, Hg, Hcat, Hrole. simpl in *. rewrite Hcreate. simpl.
  split_on_answers; reflexivity.
Qed.

Lemma no_ticket_no_open d u :
  no_ticket_of d u -> Database.get_user_open_ticket d u = None.
Proof.
  unfold no_ticket_of, Database.get_user_open_ticket.
  induction (tickets d) as [|t l IH]; intros H; simpl; [reflexivity|].
  destruct (Z.eqb_spec (user_id t) u) as [E|_]; simpl.
  - exfalso. apply (H t); [left; reflexivity | exact E].
  - apply IH. intros t' Hin. apply H. right. exact Hin.
Qed.

(** The id generated for a user without a ticket is not in the store. *)
Lemma generated_id_is_fresh env d u :
  generated_ids d -> no_ticket_of d u ->
  Database.get_ticket d (generate_ticket_id env u) = None.
Proof.
  unfold generated_ids, no_ticket_of, Database.get_ticket, generate_ticket_id.
  remember ("ticket-" ++ PyStr.str_of_int u ++ "-"
              ++ PyStr.str_of_int (py_now env)) as tid eqn:Etid.
  induction (tickets d) as [|t l IH]; intros Hg Hn; simpl; [reflexivity|].
  inversion Hg as [|t0 l0 [now Hid] Hrest]; subst t0 l0.
  destruct (String.eqb_spec (ticket_id t) tid) as [E|_].
  - exfalso. rewrite Hid, Etid in E. apply ticket_id_determines_user in E.
    apply (Hn t); [left; reflexivity | exact E].
  - apply IH; [exact Hrest|]. intros t' Hin. apply Hn. right. exact Hin.
Qed.

Lemma first_open_ticket_after_insert d u (t : Ticket) :
  no_ticket_of d u -> user_id t = u -> status t = status_open ->
  find (fun t => Z.eqb (user_id t) u && Status_eqb (status t) status_open)
    (tickets d ++ [t])
  = Some t.
Proof.
  unfold no_ticket_of.
  induction (tickets d) as [|t' l IH]; intros Hn Hu Hs; simpl.
  - rewrite Hu, Hs, Z.eqb_refl. reflexivity.
  - destruct (Z.eqb_spec (user_id t') u) as [E|_]; simpl.
    + exfalso. apply (Hn t'); [left; reflexivity | exact E].
    + apply IH; auto. intros t'' Hin. apply Hn. right. exact Hin.
Qed.

(** C3. The ticket row is inserted only after the staff channel has
    been created.  If the support guild, the ticket category or the
    staff role is not found, or the creation of the channel raises, the
    database after [handle_ticket_creation] is the database before;
    and whenever the handler changes the database, the channel was
    created first and the change is the insertion of the new ticket. *)
Theorem no_ticket_without_staff_channel config env i w :
  (staff_channel_fails config env ("ticket-" ++ uname (interaction_user i)) ->
   db (run (handle_ticket_creation config env i) w) = db w)
  /\ (db (run (handle_ticket_creation config env i) w) <> db w ->
      exists cat chan,
        staff_channel_created config env
          ("ticket-" ++ uname (interaction_user i)) cat chan
        /\ In (CreateTextChannel ("ticket-" ++ uname (interaction_user i))
                 cat chan)
              (outbox (run (handle_ticket_creation config env i) w))
        /\ db (run (handle_ticket_creation config env i) w)
           = snd (Database.create_ticket (sql_now env) (db w)
                    (generate_ticket_id env (uid (interaction_user i)))
                    (uid (interaction_user i))
                    (user_str (interaction_user i)) chan "general")).
Proof.
  split.
  - intros Hf. unfold handle_ticket_creation.
    destruct Hf as [Hg | g Hg Hc | g Hg Hr | g cat e Hg Hc He];
      unfold_monad; simpl; rewrite Hg; try rewrite Hc; try rewrite Hr;
      simpl in *; try rewrite He; split_on_answers; reflexivity.
  - intros Hd.
    destruct (Database.get_user_open_ticket (db w) (uid (interaction_user i)))
      as [t|] eqn:Hopen.
    { exfalso. apply Hd. unfold run.
      rewrite (handle_ticket_creation_existing _ _ _ _ _ Hopen).
      apply perform_db. }
    destruct (get_guild env (SUPPORT_GUILD_ID config)) as [g|] eqn:Hg.
    2:{ exfalso. apply Hd. unfold handle_ticket_creation.
        unfold_monad. simpl. rewrite Hopen, Hg.
        split_on_answers; reflexivity. }
    destruct (find (Z.eqb (TICKET_CATEGORY_ID config)) (categories g))
      as [cat|] eqn:Hc.
    2:{ exfalso. apply Hd. unfold handle_ticket_creation.
        unfold_monad. simpl. rewrite Hopen, Hg, Hc.
        split_on_answers; reflexivity. }
    destruct (existsb (Z.eqb (STAFF_ROLE_ID config)) (guild_roles g)) eqn:Hr.
    2:{ exfalso. apply Hd. unfold handle_ticket_creation.
        unfold_monad. simpl. rewrite Hopen, Hg, Hc, Hr. simpl.
        split_on_answers; reflexivity. }
    destruct (create_text_channel env
                ("ticket-" ++ uname (interaction_user i)) cat)
      as [chan|e] eqn:Hch.
    2:{ exfalso. apply Hd. unfold handle_ticket_creation.
        unfold_monad. simpl. rewrite Hopen, Hg, Hc, Hr. simpl in *.
        rewrite Hch. split_on_answers; reflexivity. }
    assert (Hcreated : staff_channel_created config env
                         ("ticket-" ++ uname (interaction_user i)) cat chan)
      by (econstructor; eauto).
    exists cat, chan. split; [exact Hcreated|]. split.
    + unfold handle_ticket_creation. unfold_monad. simpl.
      rewrite Hopen, Hg, Hc, Hr. simpl in *. rewrite Hch. simpl.
      split_on_answers; simpl; rewrite ?in_app_iff; simpl; tauto.
    + eapply handle_ticket_creation_inserts; eassumption.
Qed.

Lemma no_ticket_without_staff_channel_witness :
  staff_channel_fails Scenario.config Scenario.env_no_guild "ticket-alice"
  /\ db (run (handle_ticket_creation Scenario.config Scenario.env_no_guild
                (mkInteraction Scenario.alice Scenario.panel))
             init_world)
     = db init_world.
Proof.
  assert (Hf : staff_channel_fails Scenario.config Scenario.env_no_guild
                 "ticket-alice")
    by (apply fails_no_guild; reflexivity).
  split; [exact Hf|].
  apply (proj1 (no_ticket_without_staff_channel Scenario.config
                  Scenario.env_no_guild
                  (mkInteraction Scenario.alice Scenario.panel) init_world)).
  exact Hf.
Defined.

(** Two presses of the create button while the support guild is not in
    the bot's cache: Alice has no ticket before, none is created, and
    the second press is answered like the first, not with the ticket
    she would already have. *)
Lemma open_twice_without_guild_creates_nothing :
  no_ticket_of (db init_world) 42
  /\ tickets
       (db (run (handle_ticket_creation Scenario.config Scenario.env_no_guild
                   (mkInteraction Scenario.alice Scenario.panel))
              (run (handle_ticket_creation Scenario.config
                      Scenario.env_no_guild
                      (mkInteraction Scenario.alice Scenario.panel))
                   init_world)))
     = []
  /\ outbox
       (run (handle_ticket_creation Scenario.config Scenario.env_no_guild
               (mkInteraction Scenario.alice Scenario.panel))
            (run (handle_ticket_creation Scenario.config
                    Scenario.env_no_guild
                    (mkInteraction Scenario.alice Scenario.panel))
                 init_world))
     = [ResponseSendMessage
          (Some "❌ Support server not found. Please contact an administrator.")
          None true;
        ResponseSendMessage
          (Some "❌ Support server not found. Please contact an administrator.")
          None true].
Proof.
  split; [intros t []|]. split; vm_compute; reflexivity.
Qed.

(** C2, as the code has it.  In every world the bot can reach by
    handling events one after the other: no user has two open tickets;
    a creation request by a user who has an open ticket is answered
    with that ticket's id and creates nothing; and for a user without
    any ticket, when the first of two consecutive requests gets its
    staff channel created, that request inserts exactly one open
    ticket and the second one is answered with its id and inserts
    nothing. *)
Theorem one_open_ticket_per_user w :
  reachable w ->
  one_open_per_user (db w)
  /\ (forall config env i t,
        Database.get_user_open_ticket (db w) (uid (interaction_user i))
        = Some t ->
        handle_ticket_creation config env i w
        = send_message env
            ("You already have an open ticket: " ++ ticket_id t) w
        /\ db (run (handle_ticket_creation config env i) w) = db w)
  /\ (forall config env1 env2 i cat chan,
        no_ticket_of (db w) (uid (interaction_user i)) ->
        staff_channel_created config env1
          ("ticket-" ++ uname (interaction_user i)) cat chan ->
        let u := interaction_user i in
        let t :=
          mkTicket (Z.of_nat (length (tickets (db w))) + 1)
            (generate_ticket_id env1 (uid u)) (uid u) (user_str u)
            status_open (sql_now env1) None chan "general" in
        let w1 := run (handle_ticket_creation config env1 i) w in
        let w2 := run (handle_ticket_creation config env2 i) w1 in
        tickets (db w1) = (tickets (db w) ++ [t])%list
        /\ handle_ticket_creation config env2 i w1
           = send_message env2
               ("You already have an open ticket: " ++ ticket_id t) w1
        /\ tickets (db w2) = (tickets (db w) ++ [t])%list).
Proof.
  intros Hr. destruct (reachable_invariants w Hr) as [Hone Hgen].
  split; [exact Hone|]. split.
  - intros config env i t Ht. split.
    + apply handle_ticket_creation_existing. exact Ht.
    + unfold run. rewrite (handle_ticket_creation_existing _ _ _ _ _ Ht).
      apply perform_db.
  - intros config env1 env2 i cat chan Hno Hch u t w1 w2.
    assert (Hdb1 : tickets (db w1) = (tickets (db w) ++ [t])%list).
    { subst w1.
      rewrite (handle_ticket_creation_inserts config env1 i cat chan w
                 (no_ticket_no_open _ _ Hno) Hch).
      unfold Database.create_ticket.
      rewrite (generated_id_is_fresh env1 (db w) (uid (interaction_user i))
                 Hgen Hno).
      reflexivity. }
    assert (Hopen : Database.get_user_open_ticket (db w1) (uid u) = Some t).
    { unfold Database.get_user_open_ticket. rewrite Hdb1.
      apply first_open_ticket_after_insert; [exact Hno | reflexivity..]. }
    split; [exact Hdb1|]. split.
    + apply handle_ticket_creation_existing. exact Hopen.
    + subst w2. unfold run at 1.
      rewrite (handle_ticket_creation_existing _ _ _ _ _ Hopen).
      change (tickets (db (run (send_message env2
                 ("You already have an open ticket: " ++ ticket_id t)) w1))
              = (tickets (db w) ++ [t])%list).
      unfold send_message. rewrite perform_db. exact Hdb1.
Qed.

Lemma one_open_ticket_per_user_witness :
  reachable Scenario.alice_has_ticket
  /\ handle_ticket_creation Scenario.config Scenario.env_close1
       (mkInteraction Scenario.alice Scenario.panel) Scenario.alice_has_ticket
     = send_message Scenario.env_close1
         "You already have an open ticket: ticket-42-1000"
         Scenario.alice_has_ticket
  /\ map ticket_id
       (tickets
          (db (run (handle_ticket_creation Scenario.config Scenario.env_close2
                      (mkInteraction Scenario.bob Scenario.panel))
                 (run (handle_ticket_creation Scenario.config
                         Scenario.env_close1
                         (mkInteraction Scenario.bob Scenario.panel))
                      Scenario.alice_has_ticket))))
     = ["ticket-42-1000"; "ticket-43-2000"].
Proof.
  assert (Hr : reachable Scenario.alice_has_ticket)
    by exact (reachable_step Scenario.config Scenario.env_open
                (CreateTicketButton (mkInteraction Scenario.alice Scenario.panel))
                init_world reachable_init).
  destruct (one_open_ticket_per_user Scenario.alice_has_ticket Hr)
    as (_ & Hexisting & Htwice).
  split; [exact Hr|]. split.
  - exact (proj1 (Hexisting Scenario.config Scenario.env_close1
                    (mkInteraction Scenario.alice Scenario.panel)
                    Scenario.alice_ticket eq_refl)).
  - assert (Hno : no_ticket_of (db Scenario.alice_has_ticket) 43).
    { intros t [<-|[]]. vm_compute. discriminate. }
    assert (Hch : staff_channel_created Scenario.config Scenario.env_close1
                    "ticket-bob" 5 900)
      by (apply (created_channel _ _ _ _ _ Scenario.support_guild);
          reflexivity).
    destruct (Htwice Scenario.config Scenario.env_close1 Scenario.env_close2
                (mkInteraction Scenario.bob Scenario.panel) 5 900 Hno Hch)
      as (_ & _ & H2).
    rewrite H2. reflexivity.
Defined.

(* ================================================================== *)
(** ** The close button after a restart *)

Lemma close_row_other now tid t :
  ticket_id t <> tid -> Database.close_row now tid t = t.
Proof.
  intros H. unfold Database.close_row.
  apply String.eqb_neq in H. rewrite H. reflexivity.
Qed.

Lemma generated_id_not_empty t : generated_id t -> ticket_id t <> "".
Proof. intros [now ->]. apply ticket_id_not_empty. Qed.

(** The update with the empty id matches no row of a store whose ids
    were all generated. *)
Lemma close_ticket_empty_id now d :
  generated_ids d -> Database.close_ticket now d "" = d.
Proof.
  unfold generated_ids, Database.close_ticket. destruct d as [ts ms]. simpl.
  intros H. f_equal.
  induction H as [|t l Ht _ IH]; simpl; [reflexivity|].
  rewrite IH, (close_row_other _ _ _ (generated_id_not_empty t Ht)).
  reflexivity.
Qed.

Lemma get_ticket_empty_id d :
  generated_ids d -> Database.get_ticket d "" = None.
Proof.
  unfold generated_ids, Database.get_ticket.
  induction 1 as [|t l Ht _ IH]; simpl; [reflexivity|].
  apply generated_id_not_empty, String.eqb_neq in Ht. rewrite Ht. exact IH.
Qed.

(** C9. The only close view [on_ready] registers carries the empty
    ticket id (and it registers it whenever both guilds are found).
    Pressing that button in any reachable world runs the update with
    the empty id, which matches no row: the database is unchanged, for
    every invoker.  For a staff member whose edit the platform accepts,
    the announcement is nevertheless replaced by the embed that shows
    the ticket as closed, and nothing else is sent. *)
Theorem restart_close_button_closes_nothing config env env' i w :
  reachable w ->
  (forall tid, In (TicketCloseView tid) (on_ready config env) -> tid = "")
  /\ (get_guild env (MAIN_GUILD_ID config) <> None ->
      get_guild env (SUPPORT_GUILD_ID config) <> None ->
      on_ready config env = [TicketView; TicketCloseView ""])
  /\ Database.close_ticket (sql_now env') (db w) "" = db w
  /\ db (run (close_ticket_button config env' "" i) w) = db w
  /\ (has_staff_role config (interaction_user i) = true ->
      deliver env'
        (ResponseEditMessage
           (ticket_closed_embed env' "" (interaction_user i))) = None ->
      outbox (run (close_ticket_button config env' "" i) w)
      = (outbox w
         ++ [ResponseEditMessage
               (ticket_closed_embed env' "" (interaction_user i))])%list
      /\ In ("Status", "🔴 Closed")
            (fields (ticket_closed_embed env' "" (interaction_user i)))).
Proof.
  intros Hr. destruct (reachable_invariants w Hr) as [_ Hgen].
  assert (Hon : forall tid,
             In (TicketCloseView tid) (on_ready config env) -> tid = "").
  { intros tid. unfold on_ready.
    destruct (get_guild env (MAIN_GUILD_ID config)); [|intros []].
    destruct (get_guild env (SUPPORT_GUILD_ID config)); [|intros []].
    simpl. intros [H|[H|[]]]; [discriminate H | congruence]. }
  split; [exact Hon|]. split.
  { unfold on_ready.
    destruct (get_guild env (MAIN_GUILD_ID config)); [|congruence].
    destruct (get_guild env (SUPPORT_GUILD_ID config)); congruence. }
  split; [apply close_ticket_empty_id; exact Hgen|]. split.
  - destruct (has_staff_role config (interaction_user i)) eqn:Hs.
    + rewrite close_ticket_button_always_updates by exact Hs.
      apply close_ticket_empty_id. exact Hgen.
    + unfold close_ticket_button, run.
      destruct (roles (interaction_user i)) as [rs|] eqn:Hroles.
      * rewrite (staff_gate_closed _ _ rs _ _ Hroles Hs). apply perform_db.
      * rewrite (staff_gate_raises _ _ _ _ Hroles). reflexivity.
  - intros Hs Hd. split; [|simpl; auto].
    unfold close_ticket_button. pass_staff_gate Hs. unfold_monad. simpl.
    rewrite Hd. simpl.
    rewrite (close_ticket_empty_id _ _ Hgen), (get_ticket_empty_id _ Hgen).
    reflexivity.
Qed.

Lemma restart_close_button_closes_nothing_witness :
  reachable Scenario.alice_has_ticket
  /\ on_ready Scenario.config Scenario.env_close1
     = [TicketView; TicketCloseView ""]
  /\ tickets
       (db (run (close_ticket_button Scenario.config Scenario.env_close1 ""
                   (mkInteraction Scenario.sam Scenario.alice_ticket_channel))
              Scenario.alice_has_ticket))
     = [Scenario.alice_ticket].
Proof.
  assert (Hr : reachable Scenario.alice_has_ticket)
    by exact (reachable_step Scenario.config Scenario.env_open
                (CreateTicketButton (mkInteraction Scenario.alice Scenario.panel))
                init_world reachable_init).
  destruct (restart_close_button_closes_nothing Scenario.config
              Scenario.env_close1 Scenario.env_close1
              (mkInteraction Scenario.sam Scenario.alice_ticket_channel)
              Scenario.alice_has_ticket Hr)
    as (_ & Hready & _ & Hdb & _).
  split; [exact Hr|]. split.
  - apply Hready; discriminate.
  - rewrite Hdb. reflexivity.
Defined.

(* ================================================================== *)
(** ** Relaying messages *)

(** Alice has an open ticket and writes to the bot.  When the ticket's
    staff channel is not in the bot's cache the message is dropped:
    nothing is appended to the history and nothing is sent.  When the
    channel is found but the platform refuses the send, the message is
    in the history but was neither forwarded nor acknowledged. *)
Lemma dm_with_open_ticket_not_relayed :
  Database.get_user_open_ticket (db Scenario.alice_has_ticket) 42
  = Some Scenario.alice_ticket
  /\ run (on_message Scenario.config Scenario.env_no_channel
            (Scenario.alice_dm "my order is missing"))
         Scenario.alice_has_ticket
     = Scenario.alice_has_ticket
  /\ map message_content
       (ticket_messages
          (db (run (on_message Scenario.config
                      Scenario.env_channel_send_refused
                      (Scenario.alice_dm "my order is missing"))
                 Scenario.alice_has_ticket)))
     = ["my order is missing"]
  /\ outbox (run (on_message Scenario.config Scenario.env_channel_send_refused
                    (Scenario.alice_dm "my order is missing"))
               Scenario.alice_has_ticket)
     = outbox Scenario.alice_has_ticket.
Proof. repeat split; vm_compute; reflexivity. Qed.

(** C4, as the code has it.  A direct message from a non-bot user with
    an open ticket never touches the tickets.  When the ticket's staff
    channel is in the bot's cache, exactly one record is appended to
    the history, under the id of that ticket and with the sender and
    the content as received; the content is sent verbatim, titled with
    the sender, to the staff channel of the ticket, and once the
    platform has accepted that send and the reaction, these two calls
    are what the router sent (a message that starts with the command
    prefix gets the answer of the library's prefix command after
    them).  When the staff channel is not in the cache, nothing is
    appended, forwarded or acknowledged. *)
Theorem dm_relayed_to_staff_channel config env m c t w :
  is_bot (msg_author m) = false ->
  msg_channel m = DMChannel c ->
  Database.get_user_open_ticket (db w) (uid (msg_author m)) = Some t ->
  let w' := run (on_message config env m) w in
  let record :=
    mkTicketMessage (Z.of_nat (length (ticket_messages (db w))) + 1)
      (ticket_id t) (uid (msg_author m)) (user_str (msg_author m))
      (msg_content m) (sql_now env) in
  let forward :=
    ChannelSend (support_channel_id t) None
      (Some (mkEmbed ("💬 Message from " ++ user_str (msg_author m))
               (msg_content m) green (Some (py_now env)) None []))
      None in
  let ack := AddReaction (message_id m) "✅" in
  tickets (db w') = tickets (db w)
  /\ (get_channel env (support_channel_id t) = true ->
      ticket_messages (db w') = (ticket_messages (db w) ++ [record])%list
      /\ (deliver env forward = None -> deliver env ack = None ->
          outbox w'
          = (outbox w ++ [forward; ack] ++ prefix_command_calls env m)%list))
  /\ (get_channel env (support_channel_id t) = false ->
      handle_dm_message config env m w = (Ok tt, w)
      /\ w' = mkWorld (db w) (outbox w ++ prefix_command_calls env m))
  /\ (PyStr.startswith (msg_content m) "!" = false ->
      prefix_command_calls env m = []).
Proof.
  intros Hb Hc Ht w' record forward ack. subst w'.
  unfold run. rewrite (on_message_dm _ _ _ _ _ Hb Hc).
  unfold handle_dm_message. unfold_monad. cbv beta. rewrite Ht.
  unfold forward_to_staff_embed. fold forward. fold ack.
  destruct (get_channel env (support_channel_id t)); cbv beta iota.
  - split; [split_on_answers; reflexivity|]. split; [|split].
    + intros _. split; [split_on_answers; reflexivity|].
      intros Hf Ha. rewrite Hf. cbn [db outbox]. rewrite Ha. cbn [snd outbox].
      rewrite <- !app_assoc. reflexivity.
    + discriminate.
    + apply prefix_command_calls_none.
  - split; [reflexivity|]. split; [discriminate|]. split.
    + intros _. split; reflexivity.
    + apply prefix_command_calls_none.
Qed.

(** A direct message [!help] from Alice, who has an open ticket: it is
    relayed like any other content, and the help text of the library's
    prefix command follows in her direct channel. *)
Lemma help_in_dm_is_relayed_and_answered :
  outbox (run (on_message Scenario.config
                 (Scenario.env_help 2000 "2024-01-01 10:00:00")
                 (Scenario.alice_dm "!help"))
            Scenario.alice_has_ticket)
  = (outbox Scenario.alice_has_ticket
     ++ [ChannelSend 900 None
           (Some (mkEmbed "💬 Message from alice#0001" "!help" green
                    (Some 2000) None []))
           None;
         AddReaction 5001 "✅";
         ChannelSend 4200 (Some "No Category: help") None None])%list.
Proof. vm_compute. reflexivity. Qed.

Lemma dm_relayed_to_staff_channel_witness :
  map (fun r => (msg_ticket_id r, author_name r, message_content r))
    (ticket_messages
       (db (run (on_message Scenario.config Scenario.env_close1
                   (Scenario.alice_dm "my order is missing"))
              Scenario.alice_has_ticket)))
  = [("ticket-42-1000", "alice#0001", "my order is missing")].
Proof.
  destruct (dm_relayed_to_staff_channel Scenario.config Scenario.env_close1
              (Scenario.alice_dm "my order is missing") 4200
              Scenario.alice_ticket Scenario.alice_has_ticket
              eq_refl eq_refl eq_refl)
    as (_ & Hfound & _).
  destruct (Hfound eq_refl) as [Hrecord _].
  rewrite Hrecord. reflexivity.
Defined.

(** Sam answers in the channel of Alice's open ticket while Alice is
    not in the bot's user cache: the answer is in the history, but it
    was not forwarded and the staff channel was told nothing. *)
Lemma staff_reply_lost_without_notice :
  Database.get_open_ticket_by_channel (db Scenario.alice_has_ticket) 900
  = Some Scenario.alice_ticket
  /\ map message_content
       (ticket_messages
          (db (run (on_message Scenario.config Scenario.env_no_user
                      Scenario.sam_reply)
                 Scenario.alice_has_ticket)))
     = ["please confirm your email"]
  /\ outbox (run (on_message Scenario.config Scenario.env_no_user
                    Scenario.sam_reply)
               Scenario.alice_has_ticket)
     = outbox Scenario.alice_has_ticket.
Proof. repeat split; vm_compute; reflexivity. Qed.

(** C5, as the code has it.  A non-bot message in a channel of the
    support guild named [ticket-...] with a matching open ticket is
    appended to the history of that ticket in every outcome, whatever
    happens to the delivery.  When the owner is in the bot's user
    cache, the content goes to the owner's direct channel under the
    staff author's name and is acknowledged; when that delivery is
    refused with [Forbidden], the staff channel gets the notice instead.
    When the owner is not in the cache, the router sends nothing.  (A
    message that starts with the command prefix gets the answer of the
    library's prefix command after the calls of the router.) *)
Theorem staff_message_relayed_to_owner config env m guild chan cname t w :
  is_bot (msg_author m) = false ->
  msg_channel m = TextChannel guild chan cname ->
  guild = SUPPORT_GUILD_ID config ->
  PyStr.startswith cname "ticket-" = true ->
  Database.get_open_ticket_by_channel (db w) chan = Some t ->
  let w' := run (on_message config env m) w in
  let record :=
    mkTicketMessage (Z.of_nat (length (ticket_messages (db w))) + 1)
      (ticket_id t) (uid (msg_author m)) (user_str (msg_author m))
      (msg_content m) (sql_now env) in
  let forward :=
    UserSend (user_id t)
      (mkEmbed "💬 Support Response" (msg_content m) blue
         (Some (py_now env)) (Some (user_str (msg_author m))) []) in
  let ack := AddReaction (message_id m) "✅" in
  let notice :=
    ChannelSend chan (Some "⚠️ Could not send DM to user (DMs disabled)")
      None None in
  tickets (db w') = tickets (db w)
  /\ ticket_messages (db w') = (ticket_messages (db w) ++ [record])%list
  /\ (get_user env (user_id t) = true ->
      deliver env forward = None -> deliver env ack = None ->
      outbox w'
      = (outbox w ++ [forward; ack] ++ prefix_command_calls env m)%list)
  /\ (get_user env (user_id t) = true ->
      deliver env forward = Some Forbidden -> deliver env notice = None ->
      outbox w' = (outbox w ++ [notice] ++ prefix_command_calls env m)%list)
  /\ (get_user env (user_id t) = false ->
      outbox (run (handle_support_message env m) w) = outbox w
      /\ outbox w' = (outbox w ++ prefix_command_calls env m)%list)
  /\ (PyStr.startswith (msg_content m) "!" = false ->
      prefix_command_calls env m = []).
Proof.
  intros Hb Hc Hg Hn Ht w' record forward ack notice. subst w' guild.
  unfold run. rewrite (on_message_support _ _ _ _ _ _ Hb Hc).
  unfold handle_support_message.
  rewrite Hb, Hc, Hn. unfold_monad. cbv beta. rewrite Ht.
  unfold support_response_embed, set_author. cbn [title description color
    embed_timestamp fields db outbox].
  fold forward. fold ack. fold notice.
  split; [split_on_answers; reflexivity|].
  split; [split_on_answers; reflexivity|].
  split; [|split; [|split]].
  - intros Hu Hf Ha. rewrite Hu, Hf. cbn [db outbox]. rewrite Ha.
    cbn [snd outbox]. rewrite <- !app_assoc. reflexivity.
  - intros Hu Hf Hno. rewrite Hu, Hf, Hno. cbn [snd outbox].
    rewrite <- !app_assoc. reflexivity.
  - intros Hu. rewrite Hu. split; reflexivity.
  - apply prefix_command_calls_none.
Qed.

Lemma staff_message_relayed_to_owner_witness :
  map (fun r => (msg_ticket_id r, author_name r, message_content r))
    (ticket_messages
       (db (run (on_message Scenario.config Scenario.env_close1
                   Scenario.sam_reply)
              Scenario.alice_has_ticket)))
  = [("ticket-42-1000", "sam#0002", "please confirm your email")].
Proof.
  destruct (staff_message_relayed_to_owner Scenario.config Scenario.env_close1
              Scenario.sam_reply 2 900 "ticket-alice"
              Scenario.alice_ticket Scenario.alice_has_ticket
              eq_refl eq_refl eq_refl eq_refl eq_refl)
    as (_ & Hrecord & _).
  rewrite Hrecord. reflexivity.
Defined.


(* ================================================================== *)
(** ** The store on its own: insert, update, lookup *)

Lemma find_snoc {A} (p : A -> bool) (l : list A) (x : A) :
  find p (l ++ [x])
  = match find p l with
    | Some y => Some y
    | None => if p x then Some x else None
    end.
Proof.
  induction l as [|a l IH]; simpl; [reflexivity|].
  destruct (p a); [reflexivity | exact IH].
Qed.

Lemma find_by_id_after_close now tid tid' (l : list Ticket) :
  find (fun t => String.eqb (ticket_id t) tid')
    (map (Database.close_row now tid) l)
  = option_map (Database.close_row now tid)
      (find (fun t => String.eqb (ticket_id t) tid') l).
Proof.
  induction l as [|t l IH]; simpl; [reflexivity|].
  rewrite close_row_ticket_id.
  destruct (String.eqb (ticket_id t) tid'); [reflexivity | exact IH].
Qed.

Lemma get_ticket_id d tid t :
  Database.get_ticket d tid = Some t -> In t (tickets d) /\ ticket_id t = tid.
Proof.
  unfold Database.get_ticket. intros H. apply find_some in H.
  destruct H as [Hin He]. apply String.eqb_eq in He. auto.
Qed.

(** Insert then look up.  A ticket id that is not in the store is
    inserted as an open ticket without [closed_at], under the next row
    id, and is found again; the lookup of every other id and the
    history are as before.  An id that is in the store is refused:
    the answer is [False] and nothing is written. *)
Theorem create_ticket_then_get_ticket now d tid u uname chan cat :
  (Database.get_ticket d tid = None ->
   let d' := snd (Database.create_ticket now d tid u uname chan cat) in
   fst (Database.create_ticket now d tid u uname chan cat) = true
   /\ Database.get_ticket d' tid
      = Some (mkTicket (Z.of_nat (length (tickets d)) + 1) tid u uname
                status_open now None chan cat)
   /\ (forall tid', tid' <> tid ->
       Database.get_ticket d' tid' = Database.get_ticket d tid')
   /\ ticket_messages d' = ticket_messages d)
  /\ (forall t, Database.get_ticket d tid = Some t ->
      Database.create_ticket now d tid u uname chan cat = (false, d)).
Proof.
  split.
  - intros Hn. unfold Database.create_ticket. rewrite Hn. simpl.
    split; [reflexivity|]. split; [|split; [|reflexivity]].
    + unfold Database.get_ticket in *. simpl. rewrite find_snoc, Hn.
      simpl. rewrite String.eqb_refl. reflexivity.
    + intros tid' Hne. unfold Database.get_ticket. simpl.
      rewrite find_snoc. simpl.
      apply not_eq_sym, String.eqb_neq in Hne. rewrite Hne.
      destruct (find _ (tickets d)); reflexivity.
  - intros t Ht. unfold Database.create_ticket. rewrite Ht. reflexivity.
Qed.

Lemma create_ticket_then_get_ticket_witness :
  Database.get_ticket
    (snd (Database.create_ticket "2024-01-01 12:00:00"
            (db Scenario.alice_has_ticket) "ticket-43-5000" 43 "bob#0003"
            901 "general"))
    "ticket-43-5000"
  = Some (mkTicket 2 "ticket-43-5000" 43 "bob#0003" status_open
            "2024-01-01 12:00:00" None 901 "general")
  /\ Database.create_ticket "2024-01-01 12:00:00"
       (db Scenario.alice_has_ticket) "ticket-42-1000" 43 "bob#0003"
       901 "general"
     = (false, db Scenario.alice_has_ticket).
Proof.
  destruct (create_ticket_then_get_ticket "2024-01-01 12:00:00"
              (db Scenario.alice_has_ticket) "ticket-43-5000" 43 "bob#0003"
              901 "general") as [Hnew _].
  destruct (create_ticket_then_get_ticket "2024-01-01 12:00:00"
              (db Scenario.alice_has_ticket) "ticket-42-1000" 43 "bob#0003"
              901 "general") as [_ Hdup].
  split.
  - exact (proj1 (proj2 (Hnew eq_refl))).
  - exact (Hdup Scenario.alice_ticket eq_refl).
Defined.

(** Close then look up.  Closing a stored id leaves a row that is
    found under the same id, closed and stamped with the time of the
    update, all its other columns unchanged; the lookup of every other
    id, the number of rows and the history are as before. *)
Theorem close_ticket_then_get_ticket now d tid t :
  Database.get_ticket d tid = Some t ->
  let d' := Database.close_ticket now d tid in
  Database.get_ticket d' tid
  = Some (mkTicket (row_id t) (ticket_id t) (user_id t) (username t)
            status_closed (created_at t) (Some now)
            (support_channel_id t) (category t))
  /\ (forall tid', tid' <> tid ->
      Database.get_ticket d' tid' = Database.get_ticket d tid')
  /\ length (tickets d') = length (tickets d)
  /\ ticket_messages d' = ticket_messages d.
Proof.
  intros Ht d'. subst d'. split; [|split; [|split; [|reflexivity]]].
  - destruct (get_ticket_id _ _ _ Ht) as [_ Hid].
    unfold Database.get_ticket in *. simpl.
    rewrite find_by_id_after_close, Ht. simpl.
    unfold Database.close_row. rewrite Hid, String.eqb_refl. reflexivity.
  - intros tid' Hne. unfold Database.get_ticket. simpl.
    rewrite find_by_id_after_close.
    destruct (find (fun t0 => String.eqb (ticket_id t0) tid') (tickets d))
      as [t'|] eqn:Hf; [|reflexivity].
    simpl. apply find_some in Hf. destruct Hf as [_ He].
    apply String.eqb_eq in He. rewrite close_row_other; congruence.
  - simpl. apply length_map.
Qed.

Lemma close_ticket_then_get_ticket_witness :
  Database.get_ticket
    (Database.close_ticket "2024-01-01 10:00:00"
       (db Scenario.alice_has_ticket) "ticket-42-1000")
    "ticket-42-1000"
  = Some (mkTicket 1 "ticket-42-1000" 42 "alice#0001" status_closed
            "2024-01-01 09:00:00" (Some "2024-01-01 10:00:00") 900 "general").
Proof.
  exact (proj1 (close_ticket_then_get_ticket "2024-01-01 10:00:00"
                  (db Scenario.alice_has_ticket) "ticket-42-1000"
                  Scenario.alice_ticket eq_refl)).
Defined.

(** Closing an id that is not in the store writes nothing and raises
    nothing: the store is as before. *)
Theorem close_ticket_unknown_id now d tid :
  Database.get_ticket d tid = None ->
  Database.close_ticket now d tid = d.
Proof.
  unfold Database.get_ticket, Database.close_ticket.
  destruct d as [ts ms]. simpl. intros H. f_equal.
  induction ts as [|t l IH]; simpl in *; [reflexivity|].
  destruct (String.eqb (ticket_id t) tid) eqn:E; [discriminate H|].
  rewrite (IH H). unfold Database.close_row. rewrite E. reflexivity.
Qed.

Lemma close_ticket_unknown_id_witness :
  Database.close_ticket "2024-01-01 10:00:00" (db Scenario.alice_has_ticket)
    "ticket-42-9999"
  = db Scenario.alice_has_ticket.
Proof.
  apply (close_ticket_unknown_id "2024-01-01 10:00:00"
           (db Scenario.alice_has_ticket) "ticket-42-9999").
  reflexivity.
Defined.

(* ================================================================== *)
(** ** Ticket ids name their user and their second *)

Lemma append_cancel_l (s x y : string) : s ++ x = s ++ y -> x = y.
Proof.
  induction s as [|c s IH]; simpl; intros E; [exact E|].
  injection E as E. exact (IH E).
Qed.

Lemma str_of_int_inj (a b : Z) :
  PyStr.str_of_int a = PyStr.str_of_int b -> a = b.
Proof.
  intros E. apply (str_of_int_then_dash a b "" "").
  rewrite E. reflexivity.
Qed.

(** [generate_ticket_id] is injective in the user and the second of the
    clock: two generated ids are equal only for the same user at the
    same second. *)
Theorem generate_ticket_id_injective env1 env2 u1 u2 :
  generate_ticket_id env1 u1 = generate_ticket_id env2 u2 ->
  u1 = u2 /\ py_now env1 = py_now env2.
Proof.
  unfold generate_ticket_id. intros E.
  assert (Hu : u1 = u2) by (eapply ticket_id_determines_user; exact E).
  subst u2. split; [reflexivity|].
  apply (append_cancel_l "ticket-") in E.
  apply append_cancel_l in E.
  apply (append_cancel_l "-") in E.
  apply str_of_int_inj. exact E.
Qed.

Lemma generate_ticket_id_injective_witness :
  42 = 42 /\ py_now Scenario.env_open = py_now (Scenario.env_at 1000 "later").
Proof.
  apply (generate_ticket_id_injective Scenario.env_open
           (Scenario.env_at 1000 "later") 42 42).
  reflexivity.
Defined.

(* ================================================================== *)
(** ** Every write of every handler *)

Lemma open_ticket_of_user_found d u t :
  Database.get_user_open_ticket d u = Some t ->
  In t (tickets d) /\ user_id t = u /\ status t = status_open.
Proof.
  unfold Database.get_user_open_ticket. intros H. apply find_some in H.
  destruct H as [Hin Hp]. apply andb_prop in Hp. destruct Hp as [Hu Hs].
  apply Z.eqb_eq in Hu. destruct (status t); [auto | discriminate Hs].
Qed.

Lemma open_ticket_of_channel_found d chan t :
  Database.get_open_ticket_by_channel d chan = Some t ->
  In t (tickets d) /\ support_channel_id t = chan /\ status t = status_open.
Proof.
  unfold Database.get_open_ticket_by_channel. intros H. apply find_some in H.
  destruct H as [Hin Hp]. apply andb_prop in Hp. destruct Hp as [Hc Hs].
  apply Z.eqb_eq in Hc. destruct (status t); [auto | discriminate Hs].
Qed.

Lemma handle_ticket_creation_db_write config env i w :
  db_write (db w) (db (run (handle_ticket_creation config env i) w)).
Proof.
  unfold handle_ticket_creation, generate_ticket_id.
  run_handler; try apply db_write_none; apply db_write_create; assumption.
Qed.

Lemma handle_dm_message_db_write config env m w :
  db_write (db w) (db (run (handle_dm_message config env m) w)).
Proof.
  unfold handle_dm_message, get_ai_response.
  run_handler; try apply db_write_none;
    match goal with
    | H : Database.get_user_open_ticket _ _ = Some _ |- _ =>
        apply open_ticket_of_user_found in H; destruct H as (? & ? & ?)
    end;
    apply db_write_message; assumption.
Qed.

Lemma handle_support_message_db_write env m w :
  db_write (db w) (db (run (handle_support_message env m) w)).
Proof.
  unfold handle_support_message.
  run_handler; try apply db_write_none;
    match goal with
    | H : Database.get_open_ticket_by_channel _ _ = Some _ |- _ =>
        apply open_ticket_of_channel_found in H; destruct H as (? & ? & ?)
    end;
    apply db_write_message; assumption.
Qed.

Lemma on_message_db_write config env m w :
  db_write (db w) (db (run (on_message config env m) w)).
Proof.
  unfold on_message.
  destruct (is_bot (msg_author m)); [apply db_write_none|].
  destruct (msg_channel m) as [c|g c n].
  - pose proof (handle_dm_message_db_write config env m w) as H.
    unfold run, bind in *.
    destruct (handle_dm_message config env m w) as [[[]|e] w'];
      [rewrite process_commands_run|]; exact H.
  - destruct (Z.eqb g (SUPPORT_GUILD_ID config)).
    + pose proof (handle_support_message_db_write env m w) as H.
      unfold run, bind in *.
      destruct (handle_support_message env m w) as [[[]|e] w'];
        [rewrite process_commands_run|]; exact H.
    + unfold run, bind, ret. rewrite process_commands_run.
      apply db_write_none.
Qed.

Lemma dispatch_db_write config env ev w :
  db_write (db w) (db (run (dispatch config env ev) w)).
Proof.
  destruct ev; simpl.
  - apply handle_ticket_creation_db_write.
  - unfold close_ticket_button.
    run_handler; try apply db_write_none; apply db_write_close.
  - apply on_message_db_write.
  - unfold setup_tickets. run_handler; apply db_write_none.
  - unfold close_ticket_command.
    run_handler; try apply db_write_none; apply db_write_close.
  - unfold ticket_info. run_handler; apply db_write_none.
Qed.

(** No event deletes a ticket or rewrites the columns that identify it:
    after any event the rows of before are still there, in place, with
    the same row id, ticket id, owner, name, creation time, staff
    channel and category, followed by at most one new row. *)
Theorem tickets_are_never_deleted config env ev w :
  exists added,
    map ticket_key (tickets (db (run (dispatch config env ev) w)))
    = (map ticket_key (tickets (db w)) ++ added)%list
    /\ (length added <= 1)%nat.
Proof.
  destruct (dispatch_db_write config env ev w)
    as [ | now tid | now t aid aname content Hin Hs | now at_ u uname chan Hn ].
  - exists []. rewrite app_nil_r. split; [reflexivity | simpl; lia].
  - exists []. rewrite app_nil_r. split; [|simpl; lia].
    simpl. rewrite map_map. apply map_ext. intros t.
    unfold ticket_key, Database.close_row.
    destruct (String.eqb (ticket_id t) tid); reflexivity.
  - exists []. rewrite app_nil_r. split; [reflexivity | simpl; lia].
  - unfold Database.create_ticket.
    destruct (Database.get_ticket (db w) _); simpl.
    + exists []. rewrite app_nil_r. split; [reflexivity | simpl; lia].
    + eexists [_]. rewrite map_app. split; [reflexivity | simpl; lia].
Qed.

(** The history is append-only: after any event the records of before
    are all there, unchanged and in order, followed by at most one new
    record, and a new record carries the id of a ticket that was stored
    and open when the event arrived. *)
Theorem history_is_append_only config env ev w :
  ticket_messages (db (run (dispatch config env ev) w))
  = ticket_messages (db w)
  \/ exists r t,
       ticket_messages (db (run (dispatch config env ev) w))
       = (ticket_messages (db w) ++ [r])%list
       /\ In t (tickets (db w))
       /\ status t = status_open
       /\ msg_ticket_id r = ticket_id t.
Proof.
  destruct (dispatch_db_write config env ev w)
    as [ | now tid | now t aid aname content Hin Hs | now at_ u uname chan Hn ].
  - left. reflexivity.
  - left. reflexivity.
  - right. eexists. exists t. simpl. split; [reflexivity|]. auto.
  - left. unfold Database.create_ticket.
    destruct (Database.get_ticket (db w) _); reflexivity.
Qed.

(** No event reopens a ticket: a row that is closed before an event is
    the same row, still closed, after it. *)
Theorem closed_ticket_stays_closed config env ev w n t :
  nth_error (tickets (db w)) n = Some t ->
  status t = status_closed ->
  exists t',
    nth_error (tickets (db (run (dispatch config env ev) w))) n = Some t'
    /\ status t' = status_closed
    /\ ticket_key t' = ticket_key t.
Proof.
  intros Hn Hc.
  destruct (dispatch_db_write config env ev w)
    as [ | now tid | now t0 aid aname content Hin Hs | now at_ u uname chan Ho ].
  - exists t. auto.
  - exists (Database.close_row now tid t). simpl.
    rewrite nth_error_map, Hn. split; [reflexivity|].
    unfold Database.close_row, ticket_key.
    destruct (String.eqb (ticket_id t) tid); simpl; auto.
  - exists t. auto.
  - exists t. unfold Database.create_ticket.
    destruct (Database.get_ticket (db w) _); simpl; [auto|].
    rewrite nth_error_app1; [auto|].
    apply nth_error_Some. congruence.
Qed.

Lemma closed_ticket_stays_closed_witness :
  exists t',
    nth_error
      (tickets
         (db (run (dispatch Scenario.config Scenario.env_close2
                     (CreateTicketButton
                        (mkInteraction Scenario.alice Scenario.panel)))
                Scenario.closed_by_command)))
      0
    = Some t'
    /\ status t' = status_closed
    /\ ticket_key t' = ticket_key Scenario.alice_ticket.
Proof.
  apply (closed_ticket_stays_closed Scenario.config Scenario.env_close2
           (CreateTicketButton (mkInteraction Scenario.alice Scenario.panel))
           Scenario.closed_by_command 0%nat
           (mkTicket 1 "ticket-42-1000" 42 "alice#0001" status_closed
              "2024-01-01 09:00:00" (Some "2024-01-01 10:00:00") 900
              "general"));
    reflexivity.
Defined.

(* ================================================================== *)
(** ** What every reachable store satisfies *)

Lemma map_ticket_id_close now tid (l : list Ticket) :
  map ticket_id (map (Database.close_row now tid) l) = map ticket_id l.
Proof.
  rewrite map_map. apply map_ext. intros t. apply close_row_ticket_id.
Qed.

Lemma get_ticket_none_not_in d tid :
  Database.get_ticket d tid = None -> ~ In tid (map ticket_id (tickets d)).
Proof.
  unfold Database.get_ticket. intros Hn Hin.
  apply in_map_iff in Hin. destruct Hin as (t & Hid & Hin).
  apply (find_none _ _ Hn) in Hin. apply String.eqb_neq in Hin. auto.
Qed.

Lemma NoDup_snoc {A} (l : list A) (x : A) :
  NoDup l -> ~ In x l -> NoDup (l ++ [x]).
Proof.
  intros Hl Hx. rewrite <- (rev_involutive (l ++ [x])).
  apply NoDup_rev. rewrite rev_app_distr. simpl.
  constructor; [rewrite <- in_rev; exact Hx | apply NoDup_rev; exact Hl].
Qed.

Lemma unique_ids_write d d' :
  db_write d d' -> unique_ids d -> unique_ids d'.
Proof.
  unfold unique_ids.
  intros [ | now tid | now t aid aname content Hin Hs | now at_ u uname chan Hn ]
    Inv; try exact Inv.
  - simpl. rewrite map_ticket_id_close. exact Inv.
  - unfold Database.create_ticket.
    destruct (Database.get_ticket d _) eqn:Hg; simpl; [exact Inv|].
    rewrite map_app.
    apply NoDup_snoc; [exact Inv|].
    apply get_ticket_none_not_in. exact Hg.
Qed.

Lemma closed_at_follows_status_write d d' :
  db_write d d' -> closed_at_follows_status d -> closed_at_follows_status d'.
Proof.
  unfold closed_at_follows_status.
  intros [ | now tid | now t aid aname content Hin Hs | now at_ u uname chan Hn ]
    Inv; try exact Inv.
  - simpl. apply Forall_map. eapply Forall_impl; [|exact Inv].
    intros t Ht. unfold Database.close_row.
    destruct (String.eqb (ticket_id t) tid); [|exact Ht].
    simpl. split; discriminate.
  - unfold Database.create_ticket.
    destruct (Database.get_ticket d _); simpl; [exact Inv|].
    apply Forall_app. split; [exact Inv|].
    constructor; [|constructor]. simpl. tauto.
Qed.

Lemma history_refers_to_tickets_write d d' :
  db_write d d' -> history_refers_to_tickets d -> history_refers_to_tickets d'.
Proof.
  unfold history_refers_to_tickets.
  intros [ | now tid | now t aid aname content Hin Hs | now at_ u uname chan Hn ]
    Inv; try exact Inv.
  - simpl. eapply Forall_impl; [|exact Inv].
    intros r (t & Hin & Hid). exists (Database.close_row now tid t).
    split; [apply in_map; exact Hin|].
    rewrite close_row_ticket_id. exact Hid.
  - simpl. apply Forall_app. split; [exact Inv|].
    constructor; [|constructor]. exists t. simpl. auto.
  - unfold Database.create_ticket.
    destruct (Database.get_ticket d _); simpl; [exact Inv|].
    eapply Forall_impl; [|exact Inv].
    intros r (t & Hin & Hid). exists t. split; [|exact Hid].
    apply in_or_app. left. exact Hin.
Qed.

Lemma reachable_alice_has_ticket : reachable Scenario.alice_has_ticket.
Proof.
  exact (reachable_step Scenario.config Scenario.env_open
           (CreateTicketButton (mkInteraction Scenario.alice Scenario.panel))
           init_world reachable_init).
Qed.

Lemma reachable_closed_by_command : reachable Scenario.closed_by_command.
Proof.
  exact (reachable_step Scenario.config Scenario.env_close1
           (CloseCommand
              (mkInteraction Scenario.sam Scenario.alice_ticket_channel)
              "ticket-42-1000")
           Scenario.alice_has_ticket reachable_alice_has_ticket).
Qed.

(** In every store the bot can reach, the ticket ids are pairwise
    distinct: a lookup by id has one candidate. *)
Theorem reachable_unique_ids w :
  reachable w -> unique_ids (db w).
Proof.
  induction 1 as [|config env ev w Hr IH]; [constructor|].
  eapply unique_ids_write; [apply dispatch_db_write | exact IH].
Qed.

Lemma reachable_unique_ids_witness :
  unique_ids (db Scenario.closed_by_command).
Proof.
  apply (reachable_unique_ids Scenario.closed_by_command).
  exact reachable_closed_by_command.
Defined.

(** In every store the bot can reach, [closed_at] is [NULL] on the open
    tickets and set on the closed ones. *)
Theorem reachable_closed_at_follows_status w :
  reachable w -> closed_at_follows_status (db w).
Proof.
  induction 1 as [|config env ev w Hr IH]; [constructor|].
  eapply closed_at_follows_status_write; [apply dispatch_db_write | exact IH].
Qed.

Lemma reachable_closed_at_follows_status_witness :
  closed_at_follows_status (db Scenario.closed_by_command).
Proof.
  apply (reachable_closed_at_follows_status Scenario.closed_by_command).
  exact reachable_closed_by_command.
Defined.

(** In every store the bot can reach, each record of the history
    carries the id of a stored ticket, although the insertion itself
    checks nothing. *)
Theorem reachable_history_refers_to_tickets w :
  reachable w -> history_refers_to_tickets (db w).
Proof.
  induction 1 as [|config env ev w Hr IH]; [constructor|].
  eapply history_refers_to_tickets_write; [apply dispatch_db_write | exact IH].
Qed.

Lemma reachable_history_refers_to_tickets_witness :
  history_refers_to_tickets
    (db (run (on_message Scenario.config Scenario.env_close1
                (Scenario.alice_dm "my order is missing"))
           Scenario.alice_has_ticket)).
Proof.
  apply (reachable_history_refers_to_tickets
           (run (dispatch Scenario.config Scenario.env_close1
                   (MessageEvent (Scenario.alice_dm "my order is missing")))
                Scenario.alice_has_ticket)).
  apply reachable_step. exact reachable_alice_has_ticket.
Defined.

(* ================================================================== *)
(** ** Closing, from the staff side *)

Lemma get_ticket_after_close now d tid t :
  Database.get_ticket d tid = Some t ->
  Database.get_ticket (Database.close_ticket now d tid) tid
  = Some (Database.close_row now tid t).
Proof.
  intros Ht. unfold Database.get_ticket in *. simpl.
  rewrite find_by_id_after_close, Ht. reflexivity.
Qed.

(** The [close] command on an open ticket closes it whatever becomes of
    the notice to its owner: the store is updated before the notice is
    tried.  When the owner is not in the cache, or refuses direct
    messages, the command still answers that the ticket has been
    closed; when the notice goes through, it precedes that answer. *)
Theorem close_command_closes_ticket config env i tid t w :
  has_staff_role config (interaction_user i) = true ->
  Database.get_ticket (db w) tid = Some t ->
  status t = status_open ->
  let w' := run (close_ticket_command config env i tid) w in
  let notice :=
    UserSend (user_id t)
      (Embed_new "🎫 Ticket Closed"
         ("Your ticket `" ++ tid ++ "` has been closed by "
            ++ mention (interaction_user i) ++ ".")
         orange) in
  let answer :=
    ResponseSendMessage
      (Some ("✅ Ticket `" ++ tid ++ "` has been closed.")) None true in
  db w' = Database.close_ticket (sql_now env) (db w) tid
  /\ (get_user env (user_id t) = false -> deliver env answer = None ->
      outbox w' = (outbox w ++ [answer])%list)
  /\ (get_user env (user_id t) = true ->
      deliver env notice = Some Forbidden -> deliver env answer = None ->
      outbox w' = (outbox w ++ [answer])%list)
  /\ (get_user env (user_id t) = true ->
      deliver env notice = None -> deliver env answer = None ->
      outbox w' = (outbox w ++ [notice; answer])%list).
Proof.
  intros Hs Ht Ho w' notice answer. subst w' notice answer.
  unfold close_ticket_command. pass_staff_gate Hs. unfold_monad. simpl.
  rewrite Ht, Ho. simpl.
  split; [split_on_answers; reflexivity|].
  split; [|split].
  - intros Hu Ha. simpl in Ha. rewrite Hu, Ha. reflexivity.
  - intros Hu Hn Ha. simpl in Hn, Ha. rewrite Hu, Hn. simpl.
    rewrite Ha. reflexivity.
  - intros Hu Hn Ha. simpl in Hn, Ha. rewrite Hu, Hn. simpl.
    rewrite Ha. simpl. rewrite <- app_assoc. reflexivity.
Qed.

Lemma close_command_closes_ticket_witness :
  map (fun t => (status t, closed_at t))
    (tickets
       (db (run (close_ticket_command Scenario.config
                   (Scenario.env_dm_forbidden 2000 "2024-01-01 10:00:00")
                   (mkInteraction Scenario.sam Scenario.alice_ticket_channel)
                   "ticket-42-1000")
              Scenario.alice_has_ticket)))
  = [(status_closed, Some "2024-01-01 10:00:00")].
Proof.
  destruct (close_command_closes_ticket Scenario.config
              (Scenario.env_dm_forbidden 2000 "2024-01-01 10:00:00")
              (mkInteraction Scenario.sam Scenario.alice_ticket_channel)
              "ticket-42-1000" Scenario.alice_ticket
              Scenario.alice_has_ticket eq_refl eq_refl eq_refl)
    as [Hdb _].
  rewrite Hdb. reflexivity.
Defined.

(** The close button of a stored ticket closes it for a staff member
    whatever the platform answers afterwards.  Once the edit of the
    announcement is accepted: with the owner not in the cache, or the
    notice refused with [Forbidden], the handler returns having sent
    the edit alone; with the notice accepted it returns having sent
    both; any other failure of the notice is not caught, and the
    handler raises it, the ticket closed and the edit sent. *)
Theorem close_button_closes_ticket config env i tid t w :
  has_staff_role config (interaction_user i) = true ->
  Database.get_ticket (db w) tid = Some t ->
  let w' := run (close_ticket_button config env tid i) w in
  let edit :=
    ResponseEditMessage (ticket_closed_embed env tid (interaction_user i)) in
  let notice := UserSend (user_id t) (ticket_closed_dm_embed tid) in
  db w' = Database.close_ticket (sql_now env) (db w) tid
  /\ Database.get_ticket (db w') tid
     = Some (mkTicket (row_id t) (ticket_id t) (user_id t) (username t)
               status_closed (created_at t) (Some (sql_now env))
               (support_channel_id t) (category t))
  /\ (deliver env edit = None ->
      get_user env (user_id t) = false
      \/ deliver env notice = Some Forbidden ->
      close_ticket_button config env tid i w
      = (Ok tt,
         mkWorld (Database.close_ticket (sql_now env) (db w) tid)
           (outbox w ++ [edit])))
  /\ (deliver env edit = None ->
      get_user env (user_id t) = true -> deliver env notice = None ->
      close_ticket_button config env tid i w
      = (Ok tt,
         mkWorld (Database.close_ticket (sql_now env) (db w) tid)
           (outbox w ++ [edit; notice])))
  /\ (deliver env edit = None ->
      get_user env (user_id t) = true ->
      deliver env notice = Some OtherException ->
      close_ticket_button config env tid i w
      = (Raise OtherException,
         mkWorld (Database.close_ticket (sql_now env) (db w) tid)
           (outbox w ++ [edit]))).
Proof.
  intros Hs Ht w' edit notice. subst w' edit notice.
  assert (Hdb : db (run (close_ticket_button config env tid i) w)
                = Database.close_ticket (sql_now env) (db w) tid)
    by (apply close_ticket_button_always_updates; exact Hs).
  destruct (get_ticket_id _ _ _ Ht) as [_ Hid].
  assert (Hrow : Database.close_row (sql_now env) tid t
                 = mkTicket (row_id t) (ticket_id t) (user_id t) (username t)
                     status_closed (created_at t) (Some (sql_now env))
                     (support_channel_id t) (category t))
    by (unfold Database.close_row; rewrite Hid, String.eqb_refl; reflexivity).
  split; [exact Hdb|]. split.
  { rewrite Hdb, (get_ticket_after_close _ _ _ _ Ht). f_equal. exact Hrow. }
  pose proof (get_ticket_after_close (sql_now env) _ _ _ Ht) as Hget.
  rewrite Hrow in Hget.
  split; [|split].
  - intros He Hn. unfold close_ticket_button. pass_staff_gate Hs.
    unfold_monad. simpl. simpl in He, Hn. rewrite He. simpl.
    rewrite Hget. simpl.
    destruct Hn as [Hn|Hn]; [rewrite Hn; reflexivity|].
    destruct (get_user env (user_id t)); [|reflexivity].
    rewrite Hn. reflexivity.
  - intros He Hu Hn. unfold close_ticket_button. pass_staff_gate Hs.
    unfold_monad. simpl. simpl in He, Hn. rewrite He. simpl.
    rewrite Hget. simpl.
    rewrite Hu, Hn. simpl. rewrite <- app_assoc. reflexivity.
  - intros He Hu Hn. unfold close_ticket_button. pass_staff_gate Hs.
    unfold_monad. simpl. simpl in He, Hn. rewrite He. simpl.
    rewrite Hget. simpl.
    rewrite Hu, Hn. reflexivity.
Qed.

Lemma close_button_closes_ticket_witness :
  Database.get_ticket
    (db (run (close_ticket_button Scenario.config
                (Scenario.env_dm_forbidden 2000 "2024-01-01 10:00:00")
                "ticket-42-1000"
                (mkInteraction Scenario.sam Scenario.alice_ticket_channel))
           Scenario.alice_has_ticket))
    "ticket-42-1000"
  = Some (mkTicket 1 "ticket-42-1000" 42 "alice#0001" status_closed
            "2024-01-01 09:00:00" (Some "2024-01-01 10:00:00") 900 "general").
Proof.
  exact (proj1 (proj2
           (close_button_closes_ticket Scenario.config
              (Scenario.env_dm_forbidden 2000 "2024-01-01 10:00:00")
              (mkInteraction Scenario.sam Scenario.alice_ticket_channel)
              "ticket-42-1000" Scenario.alice_ticket
              Scenario.alice_has_ticket eq_refl eq_refl))).
Defined.

(* ================================================================== *)
(** ** After the close: the owner can start over *)

Lemma unique_id_lookup (l : list Ticket) (t : Ticket) :
  NoDup (map ticket_id l) -> In t l ->
  find (fun x => String.eqb (ticket_id x) (ticket_id t)) l = Some t.
Proof.
  induction l as [|a l IH]; simpl; intros Hnd Hin; [contradiction|].
  inversion Hnd as [|x xs Hnotin Hnd']; subst.
  destruct (String.eqb_spec (ticket_id a) (ticket_id t)) as [E|Hne].
  - destruct Hin as [->|Hin]; [reflexivity|].
    exfalso. apply Hnotin. rewrite E. apply in_map. exact Hin.
  - destruct Hin as [Ha|Hin]; [|exact (IH Hnd' Hin)].
    exfalso. apply Hne. rewrite Ha. reflexivity.
Qed.

Lemma filter_nil_find_none {A} (p : A -> bool) (l : list A) :
  filter p l = [] -> find p l = None.
Proof.
  induction l as [|a l IH]; simpl; [reflexivity|].
  destruct (p a); [discriminate | exact IH].
Qed.

Lemma closed_row_not_open now tid u t :
  (Z.eqb (user_id t) u && Status_eqb (status t) status_open)%bool = false ->
  (Z.eqb (user_id (Database.close_row now tid t)) u
   && Status_eqb (status (Database.close_row now tid t)) status_open)%bool
  = false.
Proof.
  unfold Database.close_row.
  destruct (String.eqb (ticket_id t) tid); simpl; [|auto].
  intros _. apply andb_false_r.
Qed.

(** Closing the one open ticket of a user leaves that user without an
    open ticket. *)
Lemma no_open_ticket_after_closing_it now u t (l : list Ticket) :
  (length
     (filter (fun x => Z.eqb (user_id x) u && Status_eqb (status x) status_open)
        l) <= 1)%nat ->
  find (fun x => Z.eqb (user_id x) u && Status_eqb (status x) status_open) l
  = Some t ->
  find (fun x => Z.eqb (user_id x) u && Status_eqb (status x) status_open)
    (map (Database.close_row now (ticket_id t)) l)
  = None.
Proof.
  induction l as [|a l IH]; simpl; [discriminate|].
  destruct (Z.eqb (user_id a) u && Status_eqb (status a) status_open)%bool
    eqn:Ea.
  - simpl. intros Hlen Hf. injection Hf as ->.
    unfold Database.close_row at 1 2. rewrite String.eqb_refl. simpl.
    rewrite andb_false_r.
    apply filter_nil_find_none.
    pose proof (open_tickets_after_close now (ticket_id t) u l) as Hle.
    destruct (filter _ (map _ l)); [reflexivity | simpl in Hle; lia].
  - intros Hlen Hf. rewrite (closed_row_not_open _ _ _ _ Ea).
    exact (IH Hlen Hf).
Qed.

Lemma dm_without_open_ticket_db config env m c w :
  msg_channel m = DMChannel c ->
  Database.get_user_open_ticket (db w) (uid (msg_author m)) = None ->
  db (run (on_message config env m) w) = db w.
Proof.
  intros Hc Hn.
  assert (Hdm : db (snd (handle_dm_message config env m w)) = db w).
  { unfold handle_dm_message, get_ai_response. unfold_monad.
    rewrite Hn. simpl. split_on_answers; reflexivity. }
  destruct (is_bot (msg_author m)) eqn:Hb;
    [unfold on_message, run; rewrite Hb; reflexivity|].
  unfold run. rewrite (on_message_dm _ _ _ _ _ Hb Hc).
  destruct (handle_dm_message config env m w) as [[[]|e] w']; exact Hdm.
Qed.

(** In every reachable world, once a staff member has closed the open
    ticket of a user, by the command or by the button of that ticket,
    the user has no open ticket: the next direct message of the user is
    not recorded, and the next creation request is not answered with
    the closed ticket. *)
Theorem owner_has_no_open_ticket_after_close config env env2 i m c t w :
  reachable w ->
  Database.get_user_open_ticket (db w) (uid (msg_author m)) = Some t ->
  has_staff_role config (interaction_user i) = true ->
  msg_channel m = DMChannel c ->
  let after_command := run (close_ticket_command config env i (ticket_id t)) w in
  let after_button := run (close_ticket_button config env (ticket_id t) i) w in
  Database.get_user_open_ticket (db after_command) (uid (msg_author m)) = None
  /\ Database.get_user_open_ticket (db after_button) (uid (msg_author m)) = None
  /\ db (run (on_message config env2 m) after_command) = db after_command
  /\ db (run (on_message config env2 m) after_button) = db after_button.
Proof.
  intros Hr Ht Hs Hc after_command after_button.
  destruct (reachable_invariants w Hr) as [Hone _].
  assert (Huniq : unique_ids (db w)).
  { clear - Hr. induction Hr as [|cfg e ev w Hr IH]; [constructor|].
    eapply unique_ids_write; [apply dispatch_db_write | exact IH]. }
  destruct (open_ticket_of_user_found _ _ _ Ht) as (Hin & _ & Hopen).
  assert (Hget : Database.get_ticket (db w) (ticket_id t) = Some t)
    by (apply unique_id_lookup; assumption).
  assert (Hclosed :
            Database.get_user_open_ticket
              (Database.close_ticket (sql_now env) (db w) (ticket_id t))
              (uid (msg_author m)) = None).
  { unfold Database.get_user_open_ticket, Database.close_ticket. simpl.
    apply no_open_ticket_after_closing_it; [apply Hone | exact Ht]. }
  assert (Hcmd : db after_command
                 = Database.close_ticket (sql_now env) (db w) (ticket_id t)).
  { subst after_command. unfold close_ticket_command. pass_staff_gate Hs.
    unfold_monad. simpl. rewrite Hget, Hopen. simpl.
    split_on_answers; reflexivity. }
  assert (Hbtn : db after_button
                 = Database.close_ticket (sql_now env) (db w) (ticket_id t))
    by (apply close_ticket_button_always_updates; exact Hs).
  assert (H1 : Database.get_user_open_ticket (db after_command)
                 (uid (msg_author m)) = None)
    by (rewrite Hcmd; exact Hclosed).
  assert (H2 : Database.get_user_open_ticket (db after_button)
                 (uid (msg_author m)) = None)
    by (rewrite Hbtn; exact Hclosed).
  split; [exact H1|]. split; [exact H2|].
  split; eapply dm_without_open_ticket_db; eassumption.
Qed.

Lemma owner_has_no_open_ticket_after_close_witness :
  Database.get_user_open_ticket (db Scenario.closed_by_command) 42 = None
  /\ db (run (on_message Scenario.config Scenario.env_close2
                (Scenario.alice_dm "are you still there?"))
           Scenario.closed_by_command)
     = db Scenario.closed_by_command.
Proof.
  destruct (owner_has_no_open_ticket_after_close Scenario.config
              Scenario.env_close1 Scenario.env_close2
              (mkInteraction Scenario.sam Scenario.alice_ticket_channel)
              (Scenario.alice_dm "are you still there?") 4200
              Scenario.alice_ticket Scenario.alice_has_ticket
              reachable_alice_has_ticket eq_refl eq_refl eq_refl)
    as (H1 & _ & H3 & _).
  split; [exact H1 | exact H3].
Defined.

(** A direct message from a user without an open ticket never writes
    to the store, whatever its content: no ticket is created on the
    user's behalf and nothing enters the history. *)
Theorem dm_without_open_ticket_writes_nothing config env m c w :
  msg_channel m = DMChannel c ->
  Database.get_user_open_ticket (db w) (uid (msg_author m)) = None ->
  db (run (on_message config env m) w) = db w
  /\ db (run (handle_dm_message config env m) w) = db w.
Proof.
  intros Hc Hn. split; [eapply dm_without_open_ticket_db; eassumption|].
  unfold handle_dm_message, get_ai_response. unfold_monad.
  rewrite Hn. simpl. split_on_answers; reflexivity.
Qed.

Lemma dm_without_open_ticket_writes_nothing_witness :
  db (run (on_message Scenario.config Scenario.env_open
             (Scenario.alice_dm "hello, I need help"))
          init_world)
  = db init_world.
Proof.
  exact (proj1 (dm_without_open_ticket_writes_nothing Scenario.config
                  Scenario.env_open (Scenario.alice_dm "hello, I need help")
                  4200 init_world eq_refl eq_refl)).
Defined.

(** What [on_message] drops.  A message of a bot is ignored
    altogether.  A message in a guild other than the support guild, in
    a support-guild channel whose name does not start with [ticket-],
    or in a ticket channel without an open ticket is not relayed: the
    store is as before and the only calls are those of the library's
    prefix command, so that a message that does not start with the
    command prefix leaves the world exactly as it was. *)
Theorem ignored_messages_change_nothing config env m w :
  (is_bot (msg_author m) = true -> on_message config env m w = (Ok tt, w))
  /\ ((exists guild chan cname,
         msg_channel m = TextChannel guild chan cname
         /\ (guild <> SUPPORT_GUILD_ID config
             \/ PyStr.startswith cname "ticket-" = false
             \/ Database.get_open_ticket_by_channel (db w) chan = None)) ->
      on_message config env m w
      = (Ok tt, mkWorld (db w) (outbox w ++ prefix_command_calls env m))
      /\ (PyStr.startswith (msg_content m) "!" = false ->
          on_message config env m w = (Ok tt, w))).
Proof.
  split.
  - intros Hb. unfold on_message. rewrite Hb. reflexivity.
  - intros (guild & chan & cname & Hc & Hwhy).
    assert (Hrun : on_message config env m w
                   = (Ok tt,
                      mkWorld (db w)
                        (outbox w ++ prefix_command_calls env m))).
    { unfold on_message, handle_support_message. rewrite Hc.
      destruct (is_bot (msg_author m)) eqn:Hb.
      - unfold prefix_command_calls. rewrite Hb, app_nil_r, world_eta.
        reflexivity.
      - unfold bind, query, ret.
        destruct (Z.eqb_spec guild (SUPPORT_GUILD_ID config)) as [Hg|Hg];
          [|apply process_commands_run].
        destruct Hwhy as [Hne | [Hn | Hq]]; [contradiction | |].
        + rewrite Hn. apply process_commands_run.
        + destruct (PyStr.startswith cname "ticket-");
            [rewrite Hq|]; apply process_commands_run. }
    split; [exact Hrun|].
    intros Hp. rewrite Hrun, (prefix_command_calls_none _ _ Hp), app_nil_r,
      world_eta. reflexivity.
Qed.

Lemma ignored_messages_change_nothing_witness :
  on_message Scenario.config Scenario.env_close2 Scenario.sam_reply
    Scenario.closed_by_command
  = (Ok tt, Scenario.closed_by_command).
Proof.
  apply (proj2 (ignored_messages_change_nothing Scenario.config
                  Scenario.env_close2 Scenario.sam_reply
                  Scenario.closed_by_command)).
  - exists 2, 900, "ticket-alice". split; [reflexivity|].
    right. right. reflexivity.
  - reflexivity.
Defined.

(* ================================================================== *)
(** ** Opening a ticket: what can go wrong and what cannot *)

(** The creation handler contains its failures: whatever the lookups,
    the channel creation, the announcement and the direct message do,
    the handler returns normally as long as the platform accepts the
    reply to the interaction. *)
Theorem handle_ticket_creation_contains_failures config env i w :
  (forall text,
      deliver env (ResponseSendMessage (Some text) None true) = None) ->
  exists w', handle_ticket_creation config env i w = (Ok tt, w').
Proof.
  intros Hreply. unfold handle_ticket_creation. unfold_monad.
  repeat first
    [ rewrite Hreply
    | match goal with
      | |- context [match ?x with _ => _ end] =>
          lazymatch x with
          | context [match _ with _ => _ end] => fail
          | _ => destruct x eqn:?
          end
      end ];
    eexists; reflexivity.
Qed.

Lemma handle_ticket_creation_contains_failures_witness :
  exists w',
    handle_ticket_creation Scenario.config
      (Scenario.env_dm_forbidden 1000 "2024-01-01 09:00:00")
      (mkInteraction Scenario.alice Scenario.panel) init_world
    = (Ok tt, w').
Proof.
  apply (handle_ticket_creation_contains_failures Scenario.config
           (Scenario.env_dm_forbidden 1000 "2024-01-01 09:00:00")
           (mkInteraction Scenario.alice Scenario.panel) init_world).
  reflexivity.
Defined.

(** A ticket counts as created although its owner cannot be written
    to.  For a user without an open ticket and a fresh id, once the
    staff channel exists and the announcement is posted, a refused
    direct message ([Forbidden]) leaves the ticket stored and open, and
    the reply says that the ticket was created but the direct message
    could not be sent. *)
Theorem ticket_created_although_dm_refused config env i cat chan w :
  let u := interaction_user i in
  let tid := generate_ticket_id env (uid u) in
  let announce :=
    ChannelSend chan
      (Some ("<@&" ++ PyStr.str_of_int (STAFF_ROLE_ID config) ++ ">"))
      (Some (ticket_open_embed env tid u)) (Some (TicketCloseView tid)) in
  let reply :=
    ResponseSendMessage
      (Some ("✅ Ticket created! However, I couldn't send you a DM. Please check your privacy settings."
               ++ nl ++ "Ticket ID: `" ++ tid ++ "`"))
      None true in
  Database.get_user_open_ticket (db w) (uid u) = None ->
  Database.get_ticket (db w) tid = None ->
  staff_channel_created config env ("ticket-" ++ uname u) cat chan ->
  deliver env announce = None ->
  deliver env (UserSend (uid u) (ticket_created_dm_embed tid))
  = Some Forbidden ->
  deliver env reply = None ->
  handle_ticket_creation config env i w
  = (Ok tt,
     mkWorld
       (mkDatabase
          (tickets (db w)
           ++ [mkTicket (Z.of_nat (length (tickets (db w))) + 1) tid (uid u)
                 (user_str u) status_open (sql_now env) None chan "general"])
          (ticket_messages (db w)))
       (outbox w
        ++ [CreateTextChannel ("ticket-" ++ uname u) cat chan;
            announce; reply])).
Proof.
  intros u tid announce reply Hopen Hfresh [g Hg Hcat Hrole Hch] Ha Hdm Hr.
  subst u tid announce reply.
  unfold handle_ticket_creation. unfold_monad.
  rewrite Hopen, Hg, Hcat, Hrole. simpl in *.
  rewrite Hch. simpl.
  unfold Database.create_ticket. rewrite Hfresh. simpl.
  rewrite Ha. simpl. rewrite Hdm, Hr. simpl.
  rewrite <- !app_assoc. reflexivity.
Qed.

Lemma ticket_created_although_dm_refused_witness :
  map (fun t => (ticket_id t, status t))
    (tickets
       (db (run (handle_ticket_creation Scenario.config
                   (Scenario.env_dm_forbidden 1000 "2024-01-01 09:00:00")
                   (mkInteraction Scenario.alice Scenario.panel))
              init_world)))
  = [("ticket-42-1000", status_open)].
Proof.
  unfold run.
  rewrite (ticket_created_although_dm_refused Scenario.config
             (Scenario.env_dm_forbidden 1000 "2024-01-01 09:00:00")
             (mkInteraction Scenario.alice Scenario.panel) 5 901 init_world
             eq_refl eq_refl
             (created_channel Scenario.config
                (Scenario.env_dm_forbidden 1000 "2024-01-01 09:00:00")
                "ticket-alice" 5 901 Scenario.support_guild
                eq_refl eq_refl eq_refl eq_refl)
             eq_refl eq_refl eq_refl).
  reflexivity.
Defined.

(** The answer of [create_ticket] is not read.  When the generated id
    is already in the store (the same user, within the same second,
    after the first ticket was closed), the staff channel is created
    and announced all the same, but no ticket is stored: the store is
    as before, and the user still has no open ticket. *)
Theorem colliding_id_creates_channel_without_ticket config env i cat chan t0 w :
  let u := interaction_user i in
  Database.get_user_open_ticket (db w) (uid u) = None ->
  Database.get_ticket (db w) (generate_ticket_id env (uid u)) = Some t0 ->
  staff_channel_created config env ("ticket-" ++ uname u) cat chan ->
  let w' := run (handle_ticket_creation config env i) w in
  db w' = db w
  /\ In (CreateTextChannel ("ticket-" ++ uname u) cat chan) (outbox w')
  /\ Database.get_user_open_ticket (db w') (uid u) = None.
Proof.
  intros u Hopen Hdup Hch w'.
  assert (Hdb : db w' = db w).
  { subst w' u.
    rewrite (handle_ticket_creation_inserts config env i cat chan w Hopen Hch).
    unfold Database.create_ticket. rewrite Hdup. reflexivity. }
  split; [exact Hdb|]. split; [|rewrite Hdb; exact Hopen].
  destruct Hch as [g Hg Hcat Hrole Hcreate].
  subst w' u. unfold handle_ticket_creation. unfold_monad. simpl.
  rewrite Hopen, Hg, Hcat, Hrole. simpl in *. rewrite Hcreate. simpl.
  split_on_answers; simpl; rewrite ?in_app_iff; simpl; tauto.
Qed.

Lemma colliding_id_creates_channel_without_ticket_witness :
  db Scenario.reopened_same_second = db Scenario.closed_by_command
  /\ In (CreateTextChannel "ticket-alice" 5 900)
        (outbox Scenario.reopened_same_second).
Proof.
  destruct (colliding_id_creates_channel_without_ticket Scenario.config
              Scenario.env_open
              (mkInteraction Scenario.alice Scenario.panel) 5 900
              (mkTicket 1 "ticket-42-1000" 42 "alice#0001" status_closed
                 "2024-01-01 09:00:00" (Some "2024-01-01 10:00:00") 900
                 "general")
              Scenario.closed_by_command eq_refl eq_refl
              (created_channel Scenario.config Scenario.env_open
                 "ticket-alice" 5 900 Scenario.support_guild
                 eq_refl eq_refl eq_refl eq_refl))
    as (Hdb & Hin & _).
  split; [exact Hdb | exact Hin].
Defined.

(* ================================================================== *)
(** ** The commands that only read or only post *)

(** [ticket_info] and [setup] never write to the store, whoever
    invokes them and whatever the platform answers; for a staff member,
    [ticket_info] on an id that is not stored answers that the ticket
    was not found. *)
Theorem ticket_info_and_setup_are_read_only config env i tid channel w :
  db (run (ticket_info config env i tid) w) = db w
  /\ db (run (setup_tickets env i channel) w) = db w
  /\ (has_staff_role config (interaction_user i) = true ->
      Database.get_ticket (db w) tid = None ->
      ticket_info config env i tid w
      = send_message env "❌ Ticket not found." w).
Proof.
  split; [|split].
  - unfold ticket_info. run_handler; reflexivity.
  - unfold setup_tickets. run_handler; reflexivity.
  - intros Hs Hn. unfold ticket_info. pass_staff_gate Hs. unfold_monad.
    cbv beta. rewrite Hn. reflexivity.
Qed.
